(** * support-bot: localized texts and command registration

    A shallow embedding of [app/bot/utils/texts.py] and
    [app/bot/commands.py].

    - [Texts] follows [texts.py]: the table of supported languages, the
      abstract [Text] class with its [get] lookup, and the concrete
      [TextMessage] catalog.
    - [Commands] follows [commands.py]: [setup] builds Python lists of
      [BotCommand]s (mutable objects, kept in a heap) and pushes them to
      the bot platform one [set_my_commands] call after the other.

    Python strings are kept as their UTF-8 bytes; exceptions are values of
    [exn], carried on the left of a sum. *)

From stdpp Require Import gmap strings list fin_maps.
From Stdlib Require Import ZArith DecimalString.

Open Scope string_scope.

(** ** Python exceptions that occur in the two modules *)

Inductive exn : Type :=
| KeyError (key : string)            (* subscript of a dict with an absent key *)
| TelegramBadRequest                 (* aiogram.exceptions.TelegramBadRequest *)
| ValueError (msg : string)
| OtherError (name : string).        (* any other exception of the platform client *)

#[global] Instance exn_eq_dec : EqDecision exn.
Proof. solve_decision. Defined.

(** A dict display [{k1: v1, k2: v2, ...}]: the items are stored from left
    to right, a later item replacing an earlier one with the same key. *)
Definition dict {V : Type} (items : list (string * V)) : gmap string V :=
  foldl (λ d item, <[item.1 := item.2]> d) ∅ items.

(** The line feed written [\n] in the Python literals. *)
Definition nl : string := String (Ascii.ascii_of_nat 10) EmptyString.

(** ** texts.py *)

Module Texts.

Definition SUPPORTED_LANGUAGES : gmap string string :=
  dict [ ("en", "🇬🇧 English");
         ("ar", "🇸🇾 العربية") ].

(** An instance of [Text] holds one attribute, set by [__init__]. *)
Record Text : Type := mkText { language_code : string }.

(** [Text.__init__]: an unsupported code is replaced by ["en"]. *)
Definition init (language_code : string) : Text :=
  mkText (if decide (language_code ∈ dom SUPPORTED_LANGUAGES)
          then language_code else "en").

(** The abstract property [data]: every concrete subclass supplies the
    nested dict, language code to message key to text. *)
Class TextData : Type := data : gmap string (gmap string string).

(** [Text.get]: [self.data[self.language_code][code]]; each of the two
    subscripts raises [KeyError] on an absent key. *)
Definition get `{TextData} (self : Text) (code : string) : exn + string :=
  match data !! language_code self with
  | None => inl (KeyError (language_code self))
  | Some texts =>
      match texts !! code with
      | None => inl (KeyError code)
      | Some text => inr text
      end
  end.

Section Messages.

(** [aiogram.utils.markdown.hbold] belongs to the aiogram library; the
    catalog is built over whatever string it returns. *)
Variable hbold : string → string.

Definition data_en : gmap string string :=
  dict [ ("select_language",
       "👋 <b>Hello</b>, " ++ hbold "{full_name}" ++ "!" ++ nl ++ nl ++ "Select language:");
     ("change_language", "<b>Select language:</b>");
     ("main_menu",
       "<b>Write your question</b>, and we will answer you as soon as possible:");
     ("message_sent", "<b>Message sent!</b> Expect a response.");
     ("message_edited",
       "<b>The message was edited only in your chat.</b> " ++
       "To send an edited message, send it as a new message.");
     ("user_started_bot",
       "User " ++ hbold "{name}" ++ " started the bot!" ++ nl ++ nl ++
       "List of available commands:" ++ nl ++ nl ++
       "• /ban" ++ nl ++
       "Block/Unblock user" ++
       "<blockquote>Block the user if you do not want to receive messages from him.</blockquote>" ++ nl ++ nl ++
       "• /silent" ++ nl ++
       "Activate/Deactivate silent mode" ++
       "<blockquote>When silent mode is enabled, messages are not sent to the user.</blockquote>" ++ nl ++ nl ++
       "• /information" ++ nl ++
       "User information" ++
       "<blockquote>Receive a message with basic information about the user.</blockquote>");
     ("user_restarted_bot", "User " ++ hbold "{name}" ++ " restarted the bot!");
     ("user_stopped_bot", "User " ++ hbold "{name}" ++ " stopped the bot!");
     ("user_blocked", "<b>User blocked!</b> Messages from the user are not accepted.");
     ("user_unblocked",
       "<b>User unblocked!</b> Messages from the user are being accepted again.");
     ("blocked_by_user", "<b>Message not sent!</b> The bot has been blocked by the user.");
     ("user_information",
       "<b>ID:</b>" ++ nl ++
       "- <code>{id}</code>" ++ nl ++
       "<b>Name:</b>" ++ nl ++
       "- {full_name}" ++ nl ++
       "<b>Status:</b>" ++ nl ++
       "- {state}" ++ nl ++
       "<b>Username:</b>" ++ nl ++
       "- {username}" ++ nl ++
       "<b>Blocked:</b>" ++ nl ++
       "- {is_banned}" ++ nl ++
       "<b>Registration date:</b>" ++ nl ++
       "- {created_at}");
     ("message_not_sent", "<b>Message not sent!</b> An unexpected error occurred.");
     ("message_sent_to_user", "<b>Message sent to user!</b>");
     ("silent_mode_enabled",
       "<b>Silent mode activated!</b> Messages will not be delivered to the user.");
     ("silent_mode_disabled",
       "<b>Silent mode deactivated!</b> The user will receive all messages.") ].

Definition data_ar : gmap string string :=
  dict [ ("select_language",
       "👋 <b>مرحباً</b>، " ++ hbold "{full_name}" ++ "!" ++ nl ++ nl ++ "اختر اللغة:");
     ("change_language", "<b>اختر اللغة:</b>");
     ("main_menu", "<b>اكتب سؤالك</b>، وسنجيبك في أقرب وقت ممكن:");
     ("message_sent", "<b>تم إرسال الرسالة!</b> انتظر الرد.");
     ("message_edited",
       "<b>تم تعديل الرسالة في محادثتك فقط.</b> " ++
       "لإرسال الرسالة المعدلة، أرسلها كرسالة جديدة.");
     ("user_started_bot",
       "المستخدم " ++ hbold "{name}" ++ " بدأ البوت!" ++ nl ++ nl ++
       "قائمة الأوامر المتاحة:" ++ nl ++ nl ++
       "• /ban" ++ nl ++
       "حظر/إلغاء حظر المستخدم" ++
       "<blockquote>احظر المستخدم إذا كنت لا تريد استقبال رسائل منه.</blockquote>" ++ nl ++ nl ++
       "• /silent" ++ nl ++
       "تفعيل/إلغاء الوضع الصامت" ++
       "<blockquote>عند تفعيل الوضع الصامت، لا يتم إرسال الرسائل للمستخدم.</blockquote>" ++ nl ++ nl ++
       "• /information" ++ nl ++
       "معلومات المستخدم" ++
       "<blockquote>استلم رسالة تحتوي على المعلومات الأساسية عن المستخدم.</blockquote>");
     ("user_restarted_bot", "المستخدم " ++ hbold "{name}" ++ " أعاد تشغيل البوت!");
     ("user_stopped_bot", "المستخدم " ++ hbold "{name}" ++ " أوقف البوت!");
     ("user_blocked", "<b>تم حظر المستخدم!</b> لن يتم قبول الرسائل من هذا المستخدم.");
     ("user_unblocked",
       "<b>تم إلغاء حظر المستخدم!</b> سيتم قبول الرسائل من هذا المستخدم مجدداً.");
     ("blocked_by_user", "<b>لم يتم إرسال الرسالة!</b> تم حظر البوت من قبل المستخدم.");
     ("user_information",
       "<b>المعرف:</b>" ++ nl ++
       "- <code>{id}</code>" ++ nl ++
       "<b>الاسم:</b>" ++ nl ++
       "- {full_name}" ++ nl ++
       "<b>الحالة:</b>" ++ nl ++
       "- {state}" ++ nl ++
       "<b>اسم المستخدم:</b>" ++ nl ++
       "- {username}" ++ nl ++
       "<b>محظور:</b>" ++ nl ++
       "- {is_banned}" ++ nl ++
       "<b>تاريخ التسجيل:</b>" ++ nl ++
       "- {created_at}");
     ("message_not_sent", "<b>لم يتم إرسال الرسالة!</b> حدث خطأ غير متوقع.");
     ("message_sent_to_user", "<b>تم إرسال الرسالة للمستخدم!</b>");
     ("silent_mode_enabled",
       "<b>تم تفعيل الوضع الصامت!</b> لن يتم توصيل الرسائل للمستخدم.");
     ("silent_mode_disabled",
       "<b>تم إلغاء الوضع الصامت!</b> سيستلم المستخدم جميع الرسائل.") ].

(** [TextMessage.data] *)
Definition TextMessage : TextData :=
  dict [ ("en", data_en); ("ar", data_ar) ].

End Messages.

(** *** Instances as objects

    An instance of [Text] is a Python object.  Its attribute lives in a
    store of objects, a method receives a reference to the instance, and a
    call may read and change the store. *)

Module Objects.

Definition obj : Type := nat.

Definition Store : Type := list Text.

Definition Py (A : Type) : Type := Store → Store * (exn + A).

#[global] Instance Py_ret : MRet Py := λ A x σ, (σ, inr x).

#[global] Instance Py_bind : MBind Py := λ A B f m σ,
  match m σ with
  | (σ', inl e) => (σ', inl e)
  | (σ', inr x) => f x σ'
  end.

(** [Text(language_code)]: a new object, its attribute set by [__init__]. *)
Definition new (language_code : string) : Py obj :=
  λ σ, ((σ ++ [init language_code])%list, inr (length σ)).

(** [self.language_code] *)
Definition getattr_language_code (self : obj) : Py string :=
  λ σ,
    match σ !! self with
    | Some attrs => (σ, inr (language_code attrs))
    | None => (σ, inl (OtherError "invalid reference"))
    end.

(** [self.data]: the property builds the nested dict anew at each access,
    from literals alone. *)
Definition data_property `{TextData} (self : obj) : Py (gmap string (gmap string string)) :=
  mret data.

(** [d[key]] *)
Definition subscript {V : Type} (d : gmap string V) (key : string) : Py V :=
  match d !! key with
  | Some v => mret v
  | None => λ σ, (σ, inl (KeyError key))
  end.

(** [Text.get], as a method call: [self.data[self.language_code][code]],
    evaluated from left to right. *)
Definition get `{TextData} (self : obj) (code : string) : Py string :=
  d ← data_property self;
  lang ← getattr_language_code self;
  texts ← subscript d lang;
  subscript texts code.

End Objects.

End Texts.

(** ** commands.py *)

Module Commands.

(** *** aiogram types used by the module *)

Record BotCommand : Type :=
  mkBotCommand { command : string; description : string }.

Inductive BotCommandScope : Type :=
| BotCommandScopeChat (chat_id : Z)
| BotCommandScopeAllGroupChats
| BotCommandScopeAllPrivateChats.

#[global] Instance BotCommand_eq_dec : EqDecision BotCommand.
Proof. solve_decision. Defined.

#[global] Instance BotCommandScope_eq_dec : EqDecision BotCommandScope.
Proof. solve_decision. Defined.

(** One [setMyCommands] request as it reaches the platform: the commands
    the list object holds at the time of the call, the scope, and the
    optional [language_code] keyword. *)
Record Request : Type := mkRequest {
  req_commands : list BotCommand;
  req_scope : BotCommandScope;
  req_language_code : option string
}.

#[global] Instance Request_eq_dec : EqDecision Request.
Proof. solve_decision. Defined.

(** The platform behind [bot]: given the requests made so far and the
    next one, it accepts ([None]) or raises. *)
Definition Bot : Type := list Request → Request → option exn.

(** Modelled from the spec: [app/config.py] is not among the sources; the
    configuration supplies a single relevant field, the admin/dev chat
    identifier, an integer, read as [config.bot.DEV_ID]. *)
Record BotConfig : Type := mkBotConfig { DEV_ID : Z }.
Record Config : Type := mkConfig { bot : BotConfig }.

(** *** Python list objects and the effects of a call

    A list is a mutable object: a variable or a dict value holds a
    reference into [heap].  [sent] is the log of the requests made, each
    with the platform's answer. *)

Definition ref : Type := nat.

Record State : Type := mkState {
  heap : list (list BotCommand);
  sent : list (Request * option exn)
}.

Definition initial : State := mkState [] [].

Definition M (A : Type) : Type := State → State * (exn + A).

#[global] Instance M_ret : MRet M := λ A x st, (st, inr x).

#[global] Instance M_bind : MBind M := λ A B f m st,
  match m st with
  | (st', inl e) => (st', inl e)
  | (st', inr x) => f x st'
  end.

Definition raise {A : Type} (e : exn) : M A := λ st, (st, inl e).

(** [try: body / except TelegramBadRequest: handler] *)
Definition try_except_TelegramBadRequest {A : Type} (body handler : M A) : M A :=
  λ st,
    match body st with
    | (st', inl TelegramBadRequest) => handler st'
    | r => r
    end.

(** A list display [[x1, ..., xn]] makes a new object. *)
Definition list_new (items : list BotCommand) : M ref :=
  λ st, (mkState (heap st ++ [items])%list (sent st), inr (length (heap st))).

Definition deref (l : ref) : M (list BotCommand) :=
  λ st,
    match heap st !! l with
    | Some items => (st, inr items)
    | None => (st, inl (OtherError "invalid reference"))
    end.

(** Only reached through [deref], that is on a reference in range. *)
Definition store (l : ref) (items : list BotCommand) : M unit :=
  λ st, (mkState (<[l := items]> (heap st)) (sent st), inr ()).

(** [l.append(x)] changes the object in place. *)
Definition list_append (l : ref) (x : BotCommand) : M unit :=
  items ← deref l; store l (items ++ [x])%list.

(** [l.copy()] *)
Definition list_copy (l : ref) : M ref :=
  items ← deref l; list_new items.

(** [l1 + l2] *)
Definition list_add (l1 l2 : ref) : M ref :=
  items1 ← deref l1; items2 ← deref l2; list_new (items1 ++ items2)%list.

(** [d[key]] *)
Definition getitem {V : Type} (d : gmap string V) (key : string) : M V :=
  match d !! key with
  | Some v => mret v
  | None => raise (KeyError key)
  end.

(** The request goes out and is logged with the platform's answer; a
    refusal is raised in the caller. *)
Definition send (bot : Bot) (request : Request) : M unit :=
  λ st,
    let answer := bot (sent st).*1 request in
    (mkState (heap st) (sent st ++ [(request, answer)])%list,
     match answer with
     | None => inr ()
     | Some e => inl e
     end).

(** [await bot.set_my_commands(commands=..., scope=..., language_code=...)] *)
Definition set_my_commands (bot : Bot) (commands : ref)
    (scope : BotCommandScope) (language_code : option string) : M unit :=
  items ← deref commands; send bot (mkRequest items scope language_code).

(** [str] of an integer, as an f-string prints it. *)
Definition str (n : Z) : string := NilZero.string_of_int (Z.to_int n).

Section Setup.

(** [from app.bot.utils.texts import SUPPORTED_LANGUAGES] *)
Variable SUPPORTED_LANGUAGES : gmap string string.

(** Lines 22-38: the dict [commands], with the language command appended
    when more than one language is supported. *)
Definition commands : M (gmap string ref) :=
  en ← list_new [mkBotCommand "start" "Restart bot"];
  ar ← list_new [mkBotCommand "start" "إعادة تشغيل البوت"];
  let commands := dict [("en", en); ("ar", ar)] in
  (if decide (1 < size SUPPORTED_LANGUAGES) then
     l ← getitem commands "en";
     list_append l (mkBotCommand "language" "Change language");;
     l ← getitem commands "ar";
     list_append l (mkBotCommand "language" "تغيير اللغة")
   else mret ());;
  mret commands.

(** Lines 40-51 *)
Definition group_commands : M (gmap string ref) :=
  en ← list_new [mkBotCommand "ban" "Block/Unblock a user";
                 mkBotCommand "silent" "Activate/Deactivate silent Mode";
                 mkBotCommand "information" "User information"];
  ar ← list_new [mkBotCommand "ban" "حظر/إلغاء حظر مستخدم";
                 mkBotCommand "silent" "تفعيل/إلغاء الوضع الصامت";
                 mkBotCommand "information" "معلومات المستخدم"];
  mret (dict [("en", en); ("ar", ar)]).

(** Lines 53-60 *)
Definition admin_commands (commands : gmap string ref) : M (gmap string ref) :=
  en ← (base ← getitem commands "en";
        copy ← list_copy base;
        extra ← list_new [mkBotCommand "newsletter" "Newsletter menu"];
        list_add copy extra);
  ar ← (base ← getitem commands "ar";
        copy ← list_copy base;
        extra ← list_new [mkBotCommand "newsletter" "قائمة النشرة"];
        list_add copy extra);
  mret (dict [("en", en); ("ar", ar)]).

Definition setup (bot : Bot) (config : Config) : M unit :=
  commands ← commands;
  group_commands ← group_commands;
  admin_commands ← admin_commands commands;
  try_except_TelegramBadRequest
    (l ← getitem admin_commands "en";
     set_my_commands bot l (BotCommandScopeChat (DEV_ID (Commands.bot config))) None;;
     l ← getitem admin_commands "ar";
     set_my_commands bot l (BotCommandScopeChat (DEV_ID (Commands.bot config))) (Some "ar"))
    (raise (ValueError ("Chat with DEV_ID " ++ str (DEV_ID (Commands.bot config))
                        ++ " not found.")));;
  l ← getitem commands "en";
  set_my_commands bot l BotCommandScopeAllPrivateChats None;;
  l ← getitem commands "ar";
  set_my_commands bot l BotCommandScopeAllPrivateChats (Some "ar");;
  l ← getitem group_commands "en";
  set_my_commands bot l BotCommandScopeAllGroupChats None;;
  l ← getitem group_commands "ar";
  set_my_commands bot l BotCommandScopeAllGroupChats (Some "ar").

End Setup.

(** *** delete

    [delete] builds no list; its only effect is the log of the
    [deleteMyCommands] requests it makes. *)

Record DeleteRequest : Type := mkDeleteRequest {
  del_scope : BotCommandScope;
  del_language_code : option string
}.

#[global] Instance DeleteRequest_eq_dec : EqDecision DeleteRequest.
Proof. solve_decision. Defined.

(** The platform as [delete] meets it: given the requests made so far and
    the next one, it accepts ([None]) or raises. *)
Definition DeleteBot : Type := list DeleteRequest → DeleteRequest → option exn.

Definition D (A : Type) : Type :=
  list (DeleteRequest * option exn) →
  list (DeleteRequest * option exn) * (exn + A).

#[global] Instance D_ret : MRet D := λ A x log, (log, inr x).

#[global] Instance D_bind : MBind D := λ A B f m log,
  match m log with
  | (log', inl e) => (log', inl e)
  | (log', inr x) => f x log'
  end.

Definition raise_D {A : Type} (e : exn) : D A := λ log, (log, inl e).

(** [try: body / except TelegramBadRequest: handler] *)
Definition try_except_TelegramBadRequest_D {A : Type} (body handler : D A) : D A :=
  λ log,
    match body log with
    | (log', inl TelegramBadRequest) => handler log'
    | r => r
    end.

(** [await bot.delete_my_commands(scope=..., language_code=...)] *)
Definition delete_my_commands (bot : DeleteBot)
    (scope : BotCommandScope) (language_code : option string) : D unit :=
  λ log,
    let request := mkDeleteRequest scope language_code in
    let answer := bot log.*1 request in
    ((log ++ [(request, answer)])%list,
     match answer with
     | None => inr ()
     | Some e => inl e
     end).

Definition delete (bot : DeleteBot) (config : Config) : D unit :=
  try_except_TelegramBadRequest_D
    (delete_my_commands bot (BotCommandScopeChat (DEV_ID (Commands.bot config))) None;;
     delete_my_commands bot (BotCommandScopeChat (DEV_ID (Commands.bot config)))
       (Some "ar"))
    (raise_D (ValueError ("Chat with DEV_ID " ++ str (DEV_ID (Commands.bot config))
                          ++ " not found.")));;
  delete_my_commands bot BotCommandScopeAllPrivateChats None;;
  delete_my_commands bot BotCommandScopeAllPrivateChats (Some "ar");;
  delete_my_commands bot BotCommandScopeAllGroupChats None;;
  delete_my_commands bot BotCommandScopeAllGroupChats (Some "ar").

End Commands.

(** * Vocabulary for the statements about [setup] *)

Import Commands.

(** A run starts with no list object and no request made. *)
Definition run {A : Type} (m : M A) : State * (exn + A) := m initial.

Definition requests (st : State) : list Request := (sent st).*1.

(** The observable parts of one run of [setup]: what it returns or raises,
    the log of its requests with the platform's answers, and the requests
    alone. *)
Definition setup_outcome (langs : gmap string string) (bt : Bot)
    (config : Config) : exn + unit :=
  (run (setup langs bt config)).2.

Definition setup_log (langs : gmap string string) (bt : Bot)
    (config : Config) : list (Request * option exn) :=
  sent (run (setup langs bt config)).1.

Definition setup_requests (langs : gmap string string) (bt : Bot)
    (config : Config) : list Request :=
  requests (run (setup langs bt config)).1.

(** The language a request is made for: the one named by [language_code],
    and English for the requests that leave the keyword out (the source
    introduces those as the ones in English language and passes them the
    ["en"] lists). *)
Definition request_language (r : Request) : string :=
  default "en" (req_language_code r).

Definition made_for (scope : BotCommandScope) (lang : string) (r : Request) : Prop :=
  req_scope r = scope ∧ request_language r = lang.

#[global] Instance made_for_dec scope lang r : Decision (made_for scope lang r).
Proof. unfold made_for. apply _. Defined.

(** How many of the requests are made for [lang] in [scope]. *)
Definition count_for (scope : BotCommandScope) (lang : string)
    (rs : list Request) : nat :=
  length (filter (made_for scope lang) rs).

(** Sending the requests [todo] one after the other, stopping at the first
    one the platform refuses. *)
Fixpoint attempt (bot : Bot) (done todo : list Request)
    : list (Request * option exn) :=
  match todo with
  | [] => []
  | r :: todo' =>
      match bot done r with
      | None => (r, None) :: attempt bot (done ++ [r])%list todo'
      | Some e => [(r, Some e)]
      end
  end.

(** The base list of each language, as [setup] leaves it. *)
Definition base_list (langs : gmap string string) (lang : string) : list BotCommand :=
  ((if decide (lang = "ar")
    then [mkBotCommand "start" "إعادة تشغيل البوت"]
    else [mkBotCommand "start" "Restart bot"]) ++
   (if decide (1 < size langs)
    then [if decide (lang = "ar")
          then mkBotCommand "language" "تغيير اللغة"
          else mkBotCommand "language" "Change language"]
    else []))%list.

Definition newsletter (lang : string) : BotCommand :=
  if decide (lang = "ar")
  then mkBotCommand "newsletter" "قائمة النشرة"
  else mkBotCommand "newsletter" "Newsletter menu".

Definition group_list (lang : string) : list BotCommand :=
  if decide (lang = "ar")
  then [mkBotCommand "ban" "حظر/إلغاء حظر مستخدم";
        mkBotCommand "silent" "تفعيل/إلغاء الوضع الصامت";
        mkBotCommand "information" "معلومات المستخدم"]
  else [mkBotCommand "ban" "Block/Unblock a user";
        mkBotCommand "silent" "Activate/Deactivate silent Mode";
        mkBotCommand "information" "User information"].

(** The six requests of [setup], in the order of the source. *)
Definition plan (langs : gmap string string) (dev : Z) : list Request :=
  [ mkRequest (base_list langs "en" ++ [newsletter "en"])%list
      (BotCommandScopeChat dev) None;
    mkRequest (base_list langs "ar" ++ [newsletter "ar"])%list
      (BotCommandScopeChat dev) (Some "ar");
    mkRequest (base_list langs "en") BotCommandScopeAllPrivateChats None;
    mkRequest (base_list langs "ar") BotCommandScopeAllPrivateChats (Some "ar");
    mkRequest (group_list "en") BotCommandScopeAllGroupChats None;
    mkRequest (group_list "ar") BotCommandScopeAllGroupChats (Some "ar") ].

(** What a run of [setup] raises, read off its log: nothing when every
    request was accepted; otherwise the refusal of the last request, with
    [TelegramBadRequest] on a single-chat request turned into
    [ValueError]. *)
Definition not_found (dev : Z) : exn :=
  ValueError ("Chat with DEV_ID " ++ str dev ++ " not found.").

Definition verdict (dev : Z) (log : list (Request * option exn)) : exn + unit :=
  match last log with
  | Some (r, Some e) =>
      match req_scope r, e with
      | BotCommandScopeChat _, TelegramBadRequest => inl (not_found dev)
      | _, _ => inl e
      end
  | _ => inr ()
  end.

(** The reading of the admin-chat failure under which the private-chat and
    group-chat registrations still take place: once a single-chat request
    is refused with [TelegramBadRequest], the run raises the [ValueError]
    naming [DEV_ID], no further single-chat request follows, and for every
    supported language a private-chat and a group-chat request are made
    after the refused one. *)
Definition registration_continues_after_admin_failure
    (langs : gmap string string) (bt : Bot) (config : Config) : Prop :=
  ∀ r pre post,
    setup_log langs bt config
      = (pre ++ (r, Some TelegramBadRequest) :: post)%list →
    req_scope r = BotCommandScopeChat (DEV_ID (bot config)) →
    setup_outcome langs bt config
      = inl (ValueError ("Chat with DEV_ID " ++ str (DEV_ID (bot config))
                         ++ " not found.")) ∧
    (∀ r', r' ∈ post.*1 →
           req_scope r' ≠ BotCommandScopeChat (DEV_ID (bot config))) ∧
    ∀ lang, lang ∈ dom langs →
      (∃ r', r' ∈ post.*1 ∧ made_for BotCommandScopeAllPrivateChats lang r') ∧
      (∃ r', r' ∈ post.*1 ∧ made_for BotCommandScopeAllGroupChats lang r').

(** A platform that does not know the admin chat. *)
Definition unknown_chat : Bot :=
  λ _ r, match req_scope r with
         | BotCommandScopeChat _ => Some TelegramBadRequest
         | _ => None
         end.

(** A platform that accepts every request. *)
Definition accepting : Bot := λ _ _, None.

(** The state after one more list object was made. *)
Definition push (items : list BotCommand) (st : State) : State :=
  mkState (heap st ++ [items])%list (sent st).

(** Sample inputs on which the statements below are run: a rendering of
    bold text for the catalog, and a language table with one entry. *)
Definition html_bold (s : string) : string := "<b>" ++ s ++ "</b>".

Definition english_only : gmap string string := dict [ ("en", "🇬🇧 English") ].

(** * Vocabulary for the statements about [delete] *)

(** The observable parts of one run of [delete], started with an empty
    log. *)
Definition delete_outcome (bt : DeleteBot) (config : Config) : exn + unit :=
  (delete bt config []).2.

Definition delete_log (bt : DeleteBot) (config : Config)
    : list (DeleteRequest * option exn) :=
  (delete bt config []).1.

Definition delete_requests (bt : DeleteBot) (config : Config) : list DeleteRequest :=
  (delete_log bt config).*1.

(** The six requests of [delete], in the order of the source. *)
Definition delete_plan (dev : Z) : list DeleteRequest :=
  [ mkDeleteRequest (BotCommandScopeChat dev) None;
    mkDeleteRequest (BotCommandScopeChat dev) (Some "ar");
    mkDeleteRequest BotCommandScopeAllPrivateChats None;
    mkDeleteRequest BotCommandScopeAllPrivateChats (Some "ar");
    mkDeleteRequest BotCommandScopeAllGroupChats None;
    mkDeleteRequest BotCommandScopeAllGroupChats (Some "ar") ].

(** Where a request goes: its scope and its language keyword. *)
Definition request_target (r : Request) : BotCommandScope * option string :=
  (req_scope r, req_language_code r).

Definition delete_target (d : DeleteRequest) : BotCommandScope * option string :=
  (del_scope d, del_language_code d).

(** The names of the commands a request registers. *)
Definition command_names (r : Request) : list string :=
  command <$> req_commands r.

(** More sample inputs: platforms that accept the admin chat and refuse
    the private chats, and a language table with Arabic only. *)
Definition private_refused : Bot :=
  λ _ r, match req_scope r with
         | BotCommandScopeAllPrivateChats => Some TelegramBadRequest
         | _ => None
         end.

Definition delete_accepting : DeleteBot := λ _ _, None.

Definition delete_unknown_chat : DeleteBot :=
  λ _ d, match del_scope d with
         | BotCommandScopeChat _ => Some TelegramBadRequest
         | _ => None
         end.

Definition delete_private_refused : DeleteBot :=
  λ _ d, match del_scope d with
         | BotCommandScopeAllPrivateChats => Some TelegramBadRequest
         | _ => None
         end.

Definition arabic_only : gmap string string := dict [ ("ar", "🇸🇾 العربية") ].

(** * Properties of the text catalog *)

Import Texts.

Lemma supported_codes : dom SUPPORTED_LANGUAGES = {[ "en"; "ar" ]}.
Proof. apply (bool_decide_unpack _). vm_compute. exact I. Qed.

Lemma supported_iff (code : string) :
  code ∈ dom SUPPORTED_LANGUAGES ↔ code = "en" ∨ code = "ar".
Proof. rewrite supported_codes. set_solver. Qed.

Lemma init_supported (code : string) :
  code ∈ dom SUPPORTED_LANGUAGES → language_code (init code) = code.
Proof. intros Hin. unfold init. simpl. by rewrite decide_True. Qed.

Lemma init_unsupported (code : string) :
  code ∉ dom SUPPORTED_LANGUAGES → language_code (init code) = "en".
Proof. intros Hout. unfold init. simpl. by rewrite decide_False. Qed.

(** C4: [Text.__init__] is total (it returns an instance, never an
    exception), and on a code outside [SUPPORTED_LANGUAGES] the instance
    has the language code of [Text("en")], which is ["en"]. *)
Theorem unsupported_code_falls_back_to_en (code : string) :
  code ∉ dom SUPPORTED_LANGUAGES →
  language_code (init code) = language_code (init "en") ∧
  language_code (init code) = "en".
Proof.
  intros Hout. rewrite (init_unsupported code Hout).
  split; [|done]. symmetry. apply init_supported, supported_iff. by left.
Qed.

Lemma unsupported_code_falls_back_to_en_witness :
  ("fr" ∉ dom SUPPORTED_LANGUAGES) ∧
  language_code (init "fr") = language_code (init "en") ∧
  language_code (init "fr") = "en".
Proof.
  assert ("fr" ∉ dom SUPPORTED_LANGUAGES) as Hout
    by (apply (bool_decide_unpack _); vm_compute; exact I).
  split; [exact Hout|]. exact (unsupported_code_falls_back_to_en "fr" Hout).
Defined.

(** C9: the language code of a constructed instance is always a supported
    one, and a supported input is kept as it is. *)
Theorem resolved_code_is_supported (code : string) :
  language_code (init code) ∈ dom SUPPORTED_LANGUAGES ∧
  (code ∈ dom SUPPORTED_LANGUAGES → language_code (init code) = code).
Proof.
  split; [|apply init_supported].
  destruct (decide (code ∈ dom SUPPORTED_LANGUAGES)) as [Hin|Hout].
  - by rewrite init_supported.
  - rewrite init_unsupported by done. apply supported_iff. by left.
Qed.

Lemma resolved_code_is_supported_witness :
  ("ar" ∈ dom SUPPORTED_LANGUAGES) ∧
  (language_code (init "ar") ∈ dom SUPPORTED_LANGUAGES) ∧
  language_code (init "ar") = "ar".
Proof.
  assert ("ar" ∈ dom SUPPORTED_LANGUAGES) as Hin
    by (apply (bool_decide_unpack _); vm_compute; exact I).
  destruct (resolved_code_is_supported "ar") as [Hres Hkept].
  split; [exact Hin|]. split; [exact Hres | exact (Hkept Hin)].
Defined.

(** C5: for every catalog (every implementation of [data]), every
    instance and every key: when the mapping of the instance's language
    holds the key, [get] returns the string stored there; when that
    mapping lacks the key (or the catalog lacks the language), [get]
    raises [KeyError]; and the answer depends on no other language's
    mapping. *)
Theorem get_looks_up_resolved_language (D : TextData) (self : Text) (code : string) :
  (∀ texts text,
     data !! language_code self = Some texts → texts !! code = Some text →
     get self code = inr text) ∧
  (data !! language_code self ≫= (.!! code) = None →
     ∃ key, get self code = inl (KeyError key)) ∧
  (∀ D' : TextData,
     @data D' !! language_code self = @data D !! language_code self →
     @get D' self code = @get D self code).
Proof.
  unfold get. split; [|split].
  - intros texts text -> ->. done.
  - destruct (data !! language_code self) as [texts|]; simpl; [|eauto].
    intros ->. eauto.
  - intros D' ->. done.
Qed.

Lemma get_looks_up_resolved_language_witness :
  @get (TextMessage html_bold) (init "ar") "message_sent"
    = inr "<b>تم إرسال الرسالة!</b> انتظر الرد." ∧
  (∃ key, @get (TextMessage html_bold) (init "ar") "no_such_message"
          = inl (KeyError key)) ∧
  @get (dict [("ar", data_ar html_bold)]) (init "ar") "message_sent"
    = @get (TextMessage html_bold) (init "ar") "message_sent".
Proof.
  destruct (get_looks_up_resolved_language (TextMessage html_bold)
              (init "ar") "message_sent") as (Hfound & _ & Hlocal).
  destruct (get_looks_up_resolved_language (TextMessage html_bold)
              (init "ar") "no_such_message") as (_ & Hmissing & _).
  split; [|split].
  - apply (Hfound (data_ar html_bold)); reflexivity.
  - apply Hmissing. reflexivity.
  - apply (Hlocal (dict [("ar", data_ar html_bold)])). reflexivity.
Defined.

(** C8: [get] is deterministic and without side effects.  Two calls with
    the same key, on instances of one catalog that have the same language
    code, return the same result (the same string, or the same error),
    whichever objects the instances are and whatever else the store
    holds; and each call leaves the store as it found it.  The result is
    the one [get] computes from the language code and the key. *)
Theorem get_deterministic_and_pure (D : TextData)
    (σ1 σ2 : Objects.Store) (self1 self2 : Objects.obj) (attrs1 attrs2 : Text)
    (code : string) :
  σ1 !! self1 = Some attrs1 →
  σ2 !! self2 = Some attrs2 →
  language_code attrs1 = language_code attrs2 →
  ∃ result,
    Objects.get self1 code σ1 = (σ1, result) ∧
    Objects.get self2 code σ2 = (σ2, result) ∧
    result = get attrs1 code.
Proof.
  intros Hself1 Hself2 Hlang. exists (get attrs1 code).
  assert (∀ σ self attrs, σ !! self = Some attrs →
            Objects.get self code σ = (σ, get attrs code)) as Hcall.
  { intros σ self attrs Hself.
    unfold Objects.get, Objects.data_property, Objects.getattr_language_code,
      Objects.subscript, get, mbind, Objects.Py_bind, mret, Objects.Py_ret.
    rewrite Hself.
    destruct (data !! language_code attrs) as [texts|]; [|done].
    by destruct (texts !! code). }
  split; [by apply Hcall|]. split; [|done].
  rewrite (Hcall σ2 self2 attrs2 Hself2). unfold get. by rewrite Hlang.
Qed.

Lemma get_deterministic_and_pure_witness :
  ∃ result,
    @Objects.get (TextMessage html_bold) 0 "main_menu" [init "fr"]
      = ([init "fr"], result) ∧
    @Objects.get (TextMessage html_bold) 1 "main_menu" [init "ar"; init "en"]
      = ([init "ar"; init "en"], result) ∧
    result = @get (TextMessage html_bold) (init "fr") "main_menu".
Proof.
  apply (get_deterministic_and_pure (TextMessage html_bold)
           [init "fr"] [init "ar"; init "en"] 0 1 (init "fr") (init "en")).
  - reflexivity.
  - reflexivity.
  - vm_compute. reflexivity.
Defined.

Section MessageCatalog.

Variable hbold : string → string.

Lemma TextMessage_en : @data (TextMessage hbold) !! "en" = Some (data_en hbold).
Proof. reflexivity. Qed.

Lemma TextMessage_ar : @data (TextMessage hbold) !! "ar" = Some (data_ar hbold).
Proof. reflexivity. Qed.

(** C6: the supported languages being ["en"] and ["ar"],
    [TextMessage("fr").get("message_sent")] returns the string that
    [TextMessage.data] stores under ["en"] for ["message_sent"]. *)
Theorem fr_message_sent_is_english :
  dom SUPPORTED_LANGUAGES = {[ "en"; "ar" ]} ∧
  ∃ texts,
    @data (TextMessage hbold) !! "en" = Some texts ∧
    texts !! "message_sent" = Some "<b>Message sent!</b> Expect a response." ∧
    @get (TextMessage hbold) (init "fr") "message_sent"
      = inr "<b>Message sent!</b> Expect a response.".
Proof.
  split; [apply supported_codes|].
  exists (data_en hbold). repeat split; reflexivity.
Qed.

(** C7: in [TextMessage.data] every supported language has a mapping, and
    the mappings of any two supported languages define the same message
    keys: a key present under ["en"] is present under ["ar"] and vice
    versa. *)
Theorem TextMessage_same_keys (lang1 lang2 : string) :
  lang1 ∈ dom SUPPORTED_LANGUAGES → lang2 ∈ dom SUPPORTED_LANGUAGES →
  ∃ texts1 texts2,
    @data (TextMessage hbold) !! lang1 = Some texts1 ∧
    @data (TextMessage hbold) !! lang2 = Some texts2 ∧
    dom texts1 = dom texts2 ∧
    ∀ key, is_Some (texts1 !! key) ↔ is_Some (texts2 !! key).
Proof.
  assert (dom (data_en hbold) = dom (data_ar hbold)) as Hdom.
  { apply (bool_decide_unpack _). vm_compute. exact I. }
  assert (∀ texts1 texts2 : gmap string string, dom texts1 = dom texts2 →
            ∀ key, is_Some (texts1 !! key) ↔ is_Some (texts2 !! key)) as Hkeys.
  { intros texts1 texts2 Heq key. by rewrite <-!elem_of_dom, Heq. }
  intros [-> | ->]%supported_iff [-> | ->]%supported_iff;
    rewrite ?TextMessage_en, ?TextMessage_ar; eauto 10.
Qed.

End MessageCatalog.

Lemma TextMessage_same_keys_witness :
  ("en" ∈ dom SUPPORTED_LANGUAGES) ∧ ("ar" ∈ dom SUPPORTED_LANGUAGES) ∧
  ∃ texts1 texts2,
    @data (TextMessage html_bold) !! "en" = Some texts1 ∧
    @data (TextMessage html_bold) !! "ar" = Some texts2 ∧
    dom texts1 = dom texts2 ∧
    ∀ key, is_Some (texts1 !! key) ↔ is_Some (texts2 !! key).
Proof.
  assert ("en" ∈ dom SUPPORTED_LANGUAGES) as Hen
    by (apply (bool_decide_unpack _); vm_compute; exact I).
  assert ("ar" ∈ dom SUPPORTED_LANGUAGES) as Har
    by (apply (bool_decide_unpack _); vm_compute; exact I).
  split; [exact Hen|]. split; [exact Har|].
  exact (TextMessage_same_keys html_bold "en" "ar" Hen Har).
Defined.

(** * Properties of the command registration *)

(** ** Sending until the first refusal *)

Lemma attempt_inv (bt : Bot) (todo done : list Request) :
  attempt bt done todo = (λ r, (r, None)) <$> todo ∨
  ∃ pre r e post,
    todo = (pre ++ r :: post)%list ∧
    attempt bt done todo = (((λ r, (r, None)) <$> pre) ++ [(r, Some e)])%list.
Proof.
  revert done. induction todo as [|r todo IH]; intros done; simpl.
  - by left.
  - destruct (bt done r) as [e|].
    + right. by exists [], r, e, todo.
    + destruct (IH (done ++ [r])%list) as [-> | (pre & r' & e & post & -> & ->)].
      * by left.
      * right. by exists (r :: pre), r', e, post.
Qed.

Lemma accepted_not_refused (rs : list Request) (r : Request) (e : exn) :
  (r, Some e) ∉ (λ r, (r, @None exn)) <$> rs.
Proof. intros (r' & [=] & _)%list_elem_of_fmap. Qed.

Lemma accepted_requests (rs : list Request) :
  ((λ r, (r, @None exn)) <$> rs).*1 = rs.
Proof. rewrite <-list_fmap_compose. apply list_fmap_id. Qed.

Lemma attempt_requests (bt : Bot) (todo done : list Request) (r : Request) :
  r ∈ (attempt bt done todo).*1 → r ∈ todo.
Proof.
  destruct (attempt_inv bt todo done) as [-> | (pre & r' & e & post & -> & ->)].
  - by rewrite accepted_requests.
  - rewrite fmap_app, accepted_requests. simpl.
    intros [Hpre | ->%list_elem_of_singleton]%elem_of_app; apply elem_of_app.
    + by left.
    + right. apply list_elem_of_here.
Qed.

(** ** One run of [setup], whatever the platform answers *)

Ltac answer bt :=
  lazy beta iota;
  match goal with
  | |- context [bt [] ?r] => destruct (bt [] r) as [[]|]
  | |- context [bt [?r1] ?r] => destruct (bt [r1] r) as [[]|]
  | |- context [bt [?r1; ?r2] ?r] => destruct (bt [r1; r2] r) as [[]|]
  | |- context [bt [?r1; ?r2; ?r3] ?r] => destruct (bt [r1; r2; r3] r) as [[]|]
  | |- context [bt [?r1; ?r2; ?r3; ?r4] ?r] =>
      destruct (bt [r1; r2; r3; r4] r) as [[]|]
  | |- context [bt [?r1; ?r2; ?r3; ?r4; ?r5] ?r] =>
      destruct (bt [r1; r2; r3; r4; r5] r) as [[]|]
  end;
  lazy beta iota; [reflexivity..|].

Lemma setup_run langs bt config :
  (setup_log langs bt config, setup_outcome langs bt config)
  = (attempt bt [] (plan langs (DEV_ID (bot config))),
     verdict (DEV_ID (bot config))
       (attempt bt [] (plan langs (DEV_ID (bot config))))).
Proof.
  unfold setup_log, setup_outcome, run, plan, base_list, setup, commands.
  destruct (decide (1 < size langs)); vm_compute; do 6 answer bt; reflexivity.
Qed.

Lemma setup_log_eq langs bt config :
  setup_log langs bt config = attempt bt [] (plan langs (DEV_ID (bot config))).
Proof. exact (f_equal fst (setup_run langs bt config)). Qed.

Lemma setup_outcome_eq langs bt config :
  setup_outcome langs bt config
  = verdict (DEV_ID (bot config)) (setup_log langs bt config).
Proof.
  rewrite setup_log_eq. exact (f_equal snd (setup_run langs bt config)).
Qed.

Lemma setup_requests_planned langs bt config r :
  r ∈ setup_requests langs bt config → r ∈ plan langs (DEV_ID (bot config)).
Proof.
  unfold setup_requests, requests. fold (setup_log langs bt config).
  rewrite setup_log_eq. apply attempt_requests.
Qed.

Lemma setup_success langs bt config :
  setup_outcome langs bt config = inr () →
  setup_requests langs bt config = plan langs (DEV_ID (bot config)).
Proof.
  unfold setup_requests, requests. fold (setup_log langs bt config).
  rewrite setup_outcome_eq, setup_log_eq.
  destruct (attempt_inv bt (plan langs (DEV_ID (bot config))) [])
    as [-> | (pre & r & e & post & _ & ->)].
  - intros _. apply accepted_requests.
  - unfold verdict. rewrite last_snoc. by destruct (req_scope r), e.
Qed.

(** ** Successful runs *)

Example setup_accepted :
  setup_outcome Texts.SUPPORTED_LANGUAGES accepting (mkConfig (mkBotConfig 42)) = inr () ∧
  setup_requests Texts.SUPPORTED_LANGUAGES accepting (mkConfig (mkBotConfig 42))
  = [ mkRequest [mkBotCommand "start" "Restart bot";
                 mkBotCommand "language" "Change language";
                 mkBotCommand "newsletter" "Newsletter menu"]
        (BotCommandScopeChat 42) None;
      mkRequest [mkBotCommand "start" "إعادة تشغيل البوت";
                 mkBotCommand "language" "تغيير اللغة";
                 mkBotCommand "newsletter" "قائمة النشرة"]
        (BotCommandScopeChat 42) (Some "ar");
      mkRequest [mkBotCommand "start" "Restart bot";
                 mkBotCommand "language" "Change language"]
        BotCommandScopeAllPrivateChats None;
      mkRequest [mkBotCommand "start" "إعادة تشغيل البوت";
                 mkBotCommand "language" "تغيير اللغة"]
        BotCommandScopeAllPrivateChats (Some "ar");
      mkRequest [mkBotCommand "ban" "Block/Unblock a user";
                 mkBotCommand "silent" "Activate/Deactivate silent Mode";
                 mkBotCommand "information" "User information"]
        BotCommandScopeAllGroupChats None;
      mkRequest [mkBotCommand "ban" "حظر/إلغاء حظر مستخدم";
                 mkBotCommand "silent" "تفعيل/إلغاء الوضع الصامت";
                 mkBotCommand "information" "معلومات المستخدم"]
        BotCommandScopeAllGroupChats (Some "ar") ].
Proof. split; vm_compute; reflexivity. Qed.

Ltac count_plan :=
  unfold count_for, plan;
  repeat (rewrite filter_cons;
          first [ rewrite decide_True by (split; reflexivity)
                | rewrite decide_False
                    by (intros [Hs Hl]; cbn in Hs, Hl; congruence) ]);
  rewrite filter_nil; reflexivity.

Lemma plan_counts langs dev lang :
  lang = "en" ∨ lang = "ar" →
  count_for (BotCommandScopeChat dev) lang (plan langs dev) = 1 ∧
  count_for BotCommandScopeAllPrivateChats lang (plan langs dev) = 1 ∧
  count_for BotCommandScopeAllGroupChats lang (plan langs dev) = 1.
Proof. intros [-> | ->]; repeat split; count_plan. Qed.

(** C1: when a run of [setup] ends without an exception, then for every
    supported language exactly one request was made for it in the scope of
    the admin chat, exactly one in the scope of all private chats and
    exactly one in the scope of all group chats; the run made
    3 × |SUPPORTED_LANGUAGES| requests in all. *)
Theorem setup_registers_each_scope_once (bt : Bot) (config : Config) :
  setup_outcome Texts.SUPPORTED_LANGUAGES bt config = inr () →
  (∀ lang, lang ∈ dom Texts.SUPPORTED_LANGUAGES →
     count_for (BotCommandScopeChat (DEV_ID (bot config))) lang
       (setup_requests Texts.SUPPORTED_LANGUAGES bt config) = 1 ∧
     count_for BotCommandScopeAllPrivateChats lang
       (setup_requests Texts.SUPPORTED_LANGUAGES bt config) = 1 ∧
     count_for BotCommandScopeAllGroupChats lang
       (setup_requests Texts.SUPPORTED_LANGUAGES bt config) = 1) ∧
  length (setup_requests Texts.SUPPORTED_LANGUAGES bt config)
    = 3 * size Texts.SUPPORTED_LANGUAGES.
Proof.
  intros Hok. rewrite (setup_success _ _ _ Hok).
  split; [|reflexivity].
  intros lang Hlang%supported_iff. by apply plan_counts.
Qed.

Lemma setup_registers_each_scope_once_witness :
  setup_outcome Texts.SUPPORTED_LANGUAGES accepting (mkConfig (mkBotConfig 42)) = inr () ∧
  count_for (BotCommandScopeChat 42) "ar"
    (setup_requests Texts.SUPPORTED_LANGUAGES accepting (mkConfig (mkBotConfig 42))) = 1 ∧
  length (setup_requests Texts.SUPPORTED_LANGUAGES accepting (mkConfig (mkBotConfig 42))) = 6.
Proof.
  assert (setup_outcome Texts.SUPPORTED_LANGUAGES accepting
            (mkConfig (mkBotConfig 42)) = inr ()) as Hok
    by (vm_compute; reflexivity).
  split; [exact Hok|].
  destruct (setup_registers_each_scope_once accepting (mkConfig (mkBotConfig 42)) Hok)
    as [Hcount Hlen].
  split; [|exact Hlen].
  apply (Hcount "ar"), supported_iff. by right.
Defined.

(** ** A refused admin request *)

Lemma str_examples : str 42 = "42" ∧ str (-7) = "-7" ∧ str 0 = "0".
Proof. repeat split. Qed.

(** A refusal can only be the last entry of a log whose other entries are
    acceptances. *)
Lemma refusal_is_last (rs : list Request) (r r0 : Request) (e e0 : exn)
    (pre post : list (Request * option exn)) :
  (((λ r, (r, None)) <$> rs) ++ [(r0, Some e0)])%list
    = (pre ++ (r, Some e) :: post)%list →
  post = [] ∧ pre = (λ r, (r, None)) <$> rs ∧ r = r0 ∧ e = e0.
Proof.
  destruct post as [|entry post _] using rev_ind.
  - intros [<- [= <- <-]]%app_inj_tail. done.
  - rewrite app_comm_cons, app_assoc. intros [Hrs _]%app_inj_tail.
    destruct (accepted_not_refused rs r e). rewrite Hrs.
    apply elem_of_app. right. apply list_elem_of_here.
Qed.

(** C3, as the code behaves: if a single-chat request of [setup] is
    refused with [TelegramBadRequest], the run raises [ValueError] with the
    message naming [DEV_ID], and no request at all follows the refused
    one: the admin requests after it are not made, and neither is any
    private-chat or group-chat request, every request of the run being in
    the scope of the admin chat. *)
Theorem admin_failure_aborts_setup
    (langs : gmap string string) (bt : Bot) (config : Config)
    (r : Request) (pre post : list (Request * option exn)) :
  setup_log langs bt config
    = (pre ++ (r, Some TelegramBadRequest) :: post)%list →
  req_scope r = BotCommandScopeChat (DEV_ID (bot config)) →
  setup_outcome langs bt config
    = inl (ValueError ("Chat with DEV_ID " ++ str (DEV_ID (bot config))
                       ++ " not found.")) ∧
  post = [] ∧
  ∀ r', r' ∈ setup_requests langs bt config →
        req_scope r' = BotCommandScopeChat (DEV_ID (bot config)).
Proof.
  unfold setup_requests, requests. fold (setup_log langs bt config).
  rewrite setup_outcome_eq, setup_log_eq.
  destruct (attempt_inv bt (plan langs (DEV_ID (bot config))) [])
    as [-> | (done & r0 & e & todo & Hplan & ->)].
  { intros Hlog. destruct (accepted_not_refused
      (plan langs (DEV_ID (bot config))) r TelegramBadRequest).
    rewrite Hlog. apply elem_of_app. right. apply list_elem_of_here. }
  intros (-> & -> & <- & <-)%refusal_is_last Hscope.
  unfold verdict. rewrite last_snoc, Hscope. split; [done|]. split; [done|].
  rewrite fmap_app, accepted_requests. simpl.
  unfold plan in Hplan.
  destruct done as [|r1 done]; [injection Hplan as <- _ | injection Hplan as <- Hplan].
  { by intros r' ->%list_elem_of_singleton. }
  destruct done as [|r2 done]; [injection Hplan as <- _ | injection Hplan as <- Hplan].
  { intros r' [-> | ->%list_elem_of_singleton]%elem_of_cons; done. }
  do 4 (destruct done as [|? done];
        [injection Hplan as <- _; discriminate Hscope | injection Hplan as _ Hplan]).
  by destruct done.
Qed.

Lemma admin_failure_aborts_setup_witness :
  setup_outcome Texts.SUPPORTED_LANGUAGES unknown_chat (mkConfig (mkBotConfig 42))
    = inl (ValueError "Chat with DEV_ID 42 not found.") ∧
  length (setup_log Texts.SUPPORTED_LANGUAGES unknown_chat (mkConfig (mkBotConfig 42))) = 1 ∧
  ∀ r', r' ∈ setup_requests Texts.SUPPORTED_LANGUAGES unknown_chat
               (mkConfig (mkBotConfig 42)) →
        req_scope r' = BotCommandScopeChat 42.
Proof.
  destruct (admin_failure_aborts_setup Texts.SUPPORTED_LANGUAGES unknown_chat
              (mkConfig (mkBotConfig 42))
              (mkRequest (base_list Texts.SUPPORTED_LANGUAGES "en" ++ [newsletter "en"])%list
                 (BotCommandScopeChat 42) None) [] [])
    as (Hraised & _ & Hscopes).
  - vm_compute. reflexivity.
  - reflexivity.
  - split; [exact Hraised|]. split; [reflexivity | exact Hscopes].
Defined.

(** C3, as it is written, fails: with a platform that refuses the admin
    chat, nothing follows the refused request, so no private-chat request
    is made after it. *)
Lemma registration_stops_after_admin_failure :
  ¬ registration_continues_after_admin_failure
      Texts.SUPPORTED_LANGUAGES unknown_chat (mkConfig (mkBotConfig 42)).
Proof.
  intros Hclaim.
  destruct (Hclaim
              (mkRequest (base_list Texts.SUPPORTED_LANGUAGES "en" ++ [newsletter "en"])%list
                 (BotCommandScopeChat 42) None) [] [])
    as (_ & _ & Hmade).
  - vm_compute. reflexivity.
  - reflexivity.
  - destruct (Hmade "en") as [(r' & Hr' & _) _].
    + apply supported_iff. by left.
    + by apply elem_of_nil in Hr'.
Qed.

(** ** The list objects *)

Lemma bind_run {A B : Type} (m : M A) (f : A → M B) (st : State) :
  (m ≫= f) st = match m st with
                | (st', inl e) => (st', inl e)
                | (st', inr x) => f x st'
                end.
Proof. reflexivity. Qed.

Lemma getitem_run {V : Type} (d : gmap string V) (key : string) (v : V) (st : State) :
  d !! key = Some v → getitem d key st = (st, inr v).
Proof. unfold getitem. by intros ->. Qed.

Lemma deref_run (l : ref) (items : list BotCommand) (st : State) :
  heap st !! l = Some items → deref l st = (st, inr items).
Proof. unfold deref. by intros ->. Qed.

Lemma push_old (items old : list BotCommand) (st : State) (l : ref) :
  heap st !! l = Some old → heap (push items st) !! l = Some old.
Proof. apply lookup_app_l_Some. Qed.

Lemma push_new (items : list BotCommand) (st : State) :
  heap (push items st) !! length (heap st) = Some items.
Proof. by apply list_lookup_middle. Qed.

Lemma push_length (items : list BotCommand) (st : State) :
  length (heap (push items st)) = S (length (heap st)).
Proof. simpl. rewrite length_app. simpl. lia. Qed.

Lemma list_copy_run (l : ref) (items : list BotCommand) (st : State) :
  heap st !! l = Some items →
  list_copy l st = (push items st, inr (length (heap st))).
Proof. intros Hl. unfold list_copy. by rewrite bind_run, (deref_run _ _ _ Hl). Qed.

Lemma list_add_run (l1 l2 : ref) (items1 items2 : list BotCommand) (st : State) :
  heap st !! l1 = Some items1 → heap st !! l2 = Some items2 →
  list_add l1 l2 st = (push (items1 ++ items2) st, inr (length (heap st))).
Proof.
  intros Hl1 Hl2. unfold list_add.
  by rewrite bind_run, (deref_run _ _ _ Hl1), bind_run, (deref_run _ _ _ Hl2).
Qed.

(** [base.copy() + [x]]: three new objects, the last one holding the
    items of [base] followed by [x]; the objects there before are left as
    they were. *)
Lemma copy_plus_one (d : gmap string ref) (key : string) (l : ref)
    (base : list BotCommand) (x : BotCommand) (st : State) :
  d !! key = Some l → heap st !! l = Some base →
  (base ← getitem d key;
   copy ← list_copy base;
   extra ← list_new [x];
   list_add copy extra) st
  = (push (base ++ [x]) (push [x] (push base st)),
     inr (length (heap (push [x] (push base st))))).
Proof.
  intros Hd Hl.
  rewrite bind_run, (getitem_run _ _ _ _ Hd).
  rewrite bind_run, (list_copy_run _ _ _ Hl).
  rewrite bind_run. change (list_new [x] (push base st))
    with (push [x] (push base st), @inr exn ref (length (heap (push base st)))).
  cbv beta iota.
  rewrite (list_add_run _ _ base [x]).
  - reflexivity.
  - apply push_old, push_new.
  - apply push_new.
Qed.

Lemma dict_en_ar {V : Type} (en ar : V) :
  dict [("en", en); ("ar", ar)] !! "en" = Some en ∧
  dict [("en", en); ("ar", ar)] !! "ar" = Some ar.
Proof.
  unfold dict. simpl. split.
  - rewrite lookup_insert_ne by done. apply lookup_insert_eq.
  - apply lookup_insert_eq.
Qed.

Lemma admin_commands_run (cmds : gmap string ref) (st : State) (l_en l_ar : ref)
    (base_en base_ar : list BotCommand) :
  cmds !! "en" = Some l_en → heap st !! l_en = Some base_en →
  cmds !! "ar" = Some l_ar → heap st !! l_ar = Some base_ar →
  ∃ st' a_en a_ar,
    admin_commands cmds st = (st', inr (dict [("en", a_en); ("ar", a_ar)])) ∧
    sent st' = sent st ∧
    (∀ l items, heap st !! l = Some items → heap st' !! l = Some items) ∧
    heap st' !! a_en = Some (base_en ++ [newsletter "en"])%list ∧
    heap st' !! a_ar = Some (base_ar ++ [newsletter "ar"])%list.
Proof.
  intros Hen Hl_en Har Hl_ar. unfold admin_commands.
  rewrite bind_run, (copy_plus_one _ _ _ _ _ _ Hen Hl_en).
  rewrite bind_run, (copy_plus_one _ _ _ base_ar _ _ Har)
    by by do 3 apply push_old.
  eexists _, _, _. split; [reflexivity|]. split; [reflexivity|].
  split; [|split].
  - intros l items Hl. by do 6 apply push_old.
  - do 3 apply push_old. apply push_new.
  - apply push_new.
Qed.

Lemma newsletter_command (lang : string) : command (newsletter lang) = "newsletter".
Proof. unfold newsletter. by case_decide. Qed.

(** C2: for every supported language, [admin_commands] returns a dict
    whose list for that language holds the items of the base list followed
    by exactly one more entry, the newsletter command, and the base list
    object holds after the construction what it held before; in a run of
    [setup] that ends without an exception, the list registered for the
    admin chat is the list registered for all private chats in the same
    language with the newsletter command appended. *)
Theorem admin_list_is_base_plus_newsletter :
  (∀ (cmds : gmap string ref) (st : State),
     (∀ lang, lang ∈ dom Texts.SUPPORTED_LANGUAGES →
        ∃ l, cmds !! lang = Some l ∧ is_Some (heap st !! l)) →
     ∃ st' adm,
       admin_commands cmds st = (st', inr adm) ∧
       ∀ lang, lang ∈ dom Texts.SUPPORTED_LANGUAGES →
         ∃ l a base x,
           cmds !! lang = Some l ∧ adm !! lang = Some a ∧
           heap st !! l = Some base ∧ heap st' !! l = Some base ∧
           heap st' !! a = Some (base ++ [x])%list ∧
           command x = "newsletter") ∧
  (∀ (bt : Bot) (config : Config),
     setup_outcome Texts.SUPPORTED_LANGUAGES bt config = inr () →
     ∀ lang, lang ∈ dom Texts.SUPPORTED_LANGUAGES →
       ∃ ra rp x,
         ra ∈ setup_requests Texts.SUPPORTED_LANGUAGES bt config ∧
         rp ∈ setup_requests Texts.SUPPORTED_LANGUAGES bt config ∧
         made_for (BotCommandScopeChat (DEV_ID (bot config))) lang ra ∧
         made_for BotCommandScopeAllPrivateChats lang rp ∧
         req_commands ra = (req_commands rp ++ [x])%list ∧
         command x = "newsletter").
Proof.
  split.
  - intros cmds st Hvalid.
    destruct (Hvalid "en") as (l_en & Hen & base_en & Hl_en);
      [apply supported_iff; by left|].
    destruct (Hvalid "ar") as (l_ar & Har & base_ar & Hl_ar);
      [apply supported_iff; by right|].
    destruct (admin_commands_run cmds st l_en l_ar base_en base_ar)
      as (st' & a_en & a_ar & -> & _ & Hkept & Ha_en & Ha_ar); [done..|].
    exists st', (dict [("en", a_en); ("ar", a_ar)]). split; [done|].
    destruct (dict_en_ar a_en a_ar) as [Hd_en Hd_ar].
    intros lang [-> | ->]%supported_iff.
    + exists l_en, a_en, base_en, (newsletter "en"). eauto 10.
    + exists l_ar, a_ar, base_ar, (newsletter "ar"). eauto 10.
  - intros bt config Hok lang Hlang. rewrite (setup_success _ _ _ Hok).
    unfold plan.
    apply supported_iff in Hlang as [-> | ->].
    + eexists _, _, (newsletter "en"). split; [apply list_elem_of_here|].
      split; [do 2 apply list_elem_of_further; apply list_elem_of_here|].
      repeat split.
    + eexists _, _, (newsletter "ar").
      split; [apply list_elem_of_further, list_elem_of_here|].
      split; [do 3 apply list_elem_of_further; apply list_elem_of_here|].
      repeat split.
Qed.

Lemma admin_list_is_base_plus_newsletter_witness :
  (∃ st' adm,
     admin_commands (dict [("en", 0); ("ar", 1)])
       (run (commands Texts.SUPPORTED_LANGUAGES)).1 = (st', inr adm) ∧
     ∀ lang, lang ∈ dom Texts.SUPPORTED_LANGUAGES →
       ∃ l a base x,
         dict [("en", 0); ("ar", 1)] !! lang = Some l ∧ adm !! lang = Some a ∧
         heap (run (commands Texts.SUPPORTED_LANGUAGES)).1 !! l = Some base ∧
         heap st' !! l = Some base ∧
         heap st' !! a = Some (base ++ [x])%list ∧
         command x = "newsletter") ∧
  (∀ lang, lang ∈ dom Texts.SUPPORTED_LANGUAGES →
     ∃ ra rp x,
       ra ∈ setup_requests Texts.SUPPORTED_LANGUAGES accepting (mkConfig (mkBotConfig 42)) ∧
       rp ∈ setup_requests Texts.SUPPORTED_LANGUAGES accepting (mkConfig (mkBotConfig 42)) ∧
       made_for (BotCommandScopeChat 42) lang ra ∧
       made_for BotCommandScopeAllPrivateChats lang rp ∧
       req_commands ra = (req_commands rp ++ [x])%list ∧
       command x = "newsletter").
Proof.
  destruct admin_list_is_base_plus_newsletter as [Hbuild Hsetup]. split.
  - apply Hbuild. intros lang [-> | ->]%supported_iff.
    + exists 0. split; [reflexivity | vm_compute; eauto].
    + exists 1. split; [reflexivity | vm_compute; eauto].
  - apply (Hsetup accepting (mkConfig (mkBotConfig 42))). vm_compute. reflexivity.
Defined.

Lemma base_list_names langs lang :
  command <$> base_list langs lang
  = if decide (1 < size langs) then ["start"; "language"] else ["start"].
Proof. unfold base_list. by repeat case_decide. Qed.

Lemma commands_run langs :
  run (commands langs)
  = (mkState [base_list langs "en"; base_list langs "ar"] [],
     inr (dict [("en", 0); ("ar", 1)])).
Proof.
  unfold run, commands, base_list.
  destruct (decide (1 < size langs)); reflexivity.
Qed.

Lemma dict_en_ar_inv {V : Type} (en ar v : V) (lang : string) :
  dict [("en", en); ("ar", ar)] !! lang = Some v →
  lang = "en" ∧ v = en ∨ lang = "ar" ∧ v = ar.
Proof.
  unfold dict. simpl. rewrite !lookup_insert, lookup_empty.
  repeat case_decide; naive_solver.
Qed.

Lemma planned_names langs dev r :
  r ∈ plan langs dev →
  (req_scope r = BotCommandScopeAllPrivateChats →
   command <$> req_commands r
   = if decide (1 < size langs) then ["start"; "language"] else ["start"]) ∧
  (¬ 1 < size langs → "language" ∉ command <$> req_commands r).
Proof.
  unfold plan. rewrite !elem_of_cons, elem_of_nil.
  intros [-> | [-> | [-> | [-> | [-> | [-> | []]]]]]];
    cbn [req_scope req_commands];
    (split; [try discriminate; intros _; apply base_list_names|]);
    intros Hone;
    rewrite ?fmap_app, ?base_list_names, ?decide_False by done;
    cbn [fmap list_fmap app]; rewrite ?newsletter_command;
    unfold group_list; repeat case_decide; cbn [fmap list_fmap command];
    rewrite ?elem_of_cons, elem_of_nil; intros Hin;
    repeat destruct Hin as [Hin | Hin]; done.
Qed.

(** C10: the base lists [setup] builds depend on the number of supported
    languages.  With more than one language the list of each language is
    [start, language], in that order, and that is what every private-chat
    request carries; with exactly one language the list is [start] alone,
    and no request of [setup] carries a [language] command. *)
Theorem base_list_depends_on_language_count (langs : gmap string string) :
  ∃ st cmds,
    run (commands langs) = (st, inr cmds) ∧
    dom cmds = {[ "en"; "ar" ]} ∧
    (1 < size langs →
       (∀ lang l, cmds !! lang = Some l →
          ∃ items, heap st !! l = Some items ∧
                   command <$> items = ["start"; "language"]) ∧
       (∀ bt config r,
          r ∈ setup_requests langs bt config →
          req_scope r = BotCommandScopeAllPrivateChats →
          command <$> req_commands r = ["start"; "language"])) ∧
    (size langs = 1 →
       (∀ lang l, cmds !! lang = Some l →
          ∃ items, heap st !! l = Some items ∧ command <$> items = ["start"]) ∧
       (∀ bt config r,
          r ∈ setup_requests langs bt config →
          (req_scope r = BotCommandScopeAllPrivateChats →
           command <$> req_commands r = ["start"]) ∧
          "language" ∉ command <$> req_commands r)).
Proof.
  eexists _, _. split; [apply commands_run|].
  split; [apply (bool_decide_unpack _); vm_compute; exact I|].
  split.
  - intros Hmany. split.
    + intros lang l [[-> ->] | [-> ->]]%dict_en_ar_inv; eexists;
        (split; [reflexivity|]); by rewrite base_list_names, decide_True.
    + intros bt config r Hr%setup_requests_planned Hscope.
      destruct (planned_names _ _ _ Hr) as [Hnames _].
      rewrite Hnames by done. by rewrite decide_True.
  - intros Hone. assert (¬ 1 < size langs) as Hnot by lia. split.
    + intros lang l [[-> ->] | [-> ->]]%dict_en_ar_inv; eexists;
        (split; [reflexivity|]); by rewrite base_list_names, decide_False.
    + intros bt config r Hr%setup_requests_planned.
      destruct (planned_names _ _ _ Hr) as [Hnames Hnone]. split; [|by apply Hnone].
      intros Hscope. rewrite Hnames by done. by rewrite decide_False.
Qed.

Lemma base_list_depends_on_language_count_witness :
  1 < size Texts.SUPPORTED_LANGUAGES ∧ size english_only = 1 ∧
  (∀ r, r ∈ setup_requests Texts.SUPPORTED_LANGUAGES accepting (mkConfig (mkBotConfig 42)) →
        req_scope r = BotCommandScopeAllPrivateChats →
        command <$> req_commands r = ["start"; "language"]) ∧
  (∀ r, r ∈ setup_requests english_only accepting (mkConfig (mkBotConfig 42)) →
        (req_scope r = BotCommandScopeAllPrivateChats →
         command <$> req_commands r = ["start"]) ∧
        "language" ∉ command <$> req_commands r).
Proof.
  assert (1 < size Texts.SUPPORTED_LANGUAGES) as Hmany by (vm_compute; lia).
  assert (size english_only = 1) as Hone by (vm_compute; reflexivity).
  split; [exact Hmany|]. split; [exact Hone|].
  destruct (base_list_depends_on_language_count Texts.SUPPORTED_LANGUAGES)
    as (st2 & cmds2 & _ & _ & Htwo & _).
  destruct (base_list_depends_on_language_count english_only)
    as (st1 & cmds1 & _ & _ & _ & Hsingle).
  split.
  - destruct (Htwo Hmany) as [_ Hsent]. intros r. apply Hsent.
  - destruct (Hsingle Hone) as [_ Hsent]. intros r. apply Hsent.
Defined.

(** * Further properties of [setup] *)

Lemma attempt_accepting (todo sofar : list Request) :
  attempt accepting sofar todo = (λ r, (r, None)) <$> todo.
Proof.
  revert sofar. induction todo as [|r todo IH]; intros sofar; simpl; [done|].
  by rewrite IH.
Qed.

Lemma setup_requests_accepting langs config :
  setup_requests langs accepting config = plan langs (DEV_ID (bot config)).
Proof.
  unfold setup_requests, requests. fold (setup_log langs accepting config).
  rewrite setup_log_eq, attempt_accepting. apply accepted_requests.
Qed.

Lemma accepted_answers (rs : list Request) (entry : Request * option exn) :
  entry ∈ (λ r, (r, @None exn)) <$> rs → entry.2 = None.
Proof. by intros (r & -> & _)%list_elem_of_fmap. Qed.

(** X1: [setup] stops at the first refusal.  Whatever exception the
    platform raises on a request, that request is the last one of the
    run, every request before it was accepted, and [setup] raises. *)
Theorem setup_stops_at_first_refusal
    (langs : gmap string string) (bt : Bot) (config : Config)
    (r : Request) (e : exn) (pre post : list (Request * option exn)) :
  setup_log langs bt config = (pre ++ (r, Some e) :: post)%list →
  post = [] ∧
  (∀ entry, entry ∈ pre → entry.2 = None) ∧
  ∃ e', setup_outcome langs bt config = inl e'.
Proof.
  rewrite setup_outcome_eq, setup_log_eq.
  destruct (attempt_inv bt (plan langs (DEV_ID (bot config))) [])
    as [-> | (sofar & r0 & e0 & todo & _ & ->)].
  { intros Hlog. destruct (accepted_not_refused
      (plan langs (DEV_ID (bot config))) r e).
    rewrite Hlog. apply elem_of_app. right. apply list_elem_of_here. }
  intros (-> & -> & <- & <-)%refusal_is_last.
  split; [done|]. split; [apply accepted_answers|].
  unfold verdict. rewrite last_snoc. destruct (req_scope r), e; eauto.
Qed.

Lemma setup_stops_at_first_refusal_witness :
  length (setup_log Texts.SUPPORTED_LANGUAGES private_refused
            (mkConfig (mkBotConfig 42))) = 3 ∧
  ∃ e', setup_outcome Texts.SUPPORTED_LANGUAGES private_refused
          (mkConfig (mkBotConfig 42)) = inl e'.
Proof.
  split; [vm_compute; reflexivity|].
  destruct (setup_stops_at_first_refusal Texts.SUPPORTED_LANGUAGES private_refused
              (mkConfig (mkBotConfig 42))
              (mkRequest (base_list Texts.SUPPORTED_LANGUAGES "en")
                 BotCommandScopeAllPrivateChats None)
              TelegramBadRequest
              ((λ r, (r, None)) <$>
                 take 2 (plan Texts.SUPPORTED_LANGUAGES 42)) [])
    as (_ & _ & Hraised).
  - vm_compute. reflexivity.
  - exact Hraised.
Defined.

(** X2: only [TelegramBadRequest] on a request for the admin chat is
    turned into [ValueError].  Any other refusal, be it another exception
    on an admin request or any exception (also [TelegramBadRequest]) on a
    private-chat or group-chat request, leaves [setup] unchanged. *)
Theorem setup_propagates_other_refusals
    (langs : gmap string string) (bt : Bot) (config : Config)
    (r : Request) (e : exn) :
  (r, Some e) ∈ setup_log langs bt config →
  req_scope r ≠ BotCommandScopeChat (DEV_ID (bot config)) ∨ e ≠ TelegramBadRequest →
  setup_outcome langs bt config = inl e.
Proof.
  rewrite setup_outcome_eq, setup_log_eq.
  destruct (attempt_inv bt (plan langs (DEV_ID (bot config))) [])
    as [-> | (sofar & r0 & e0 & todo & Hplan & ->)].
  { intros []%accepted_not_refused. }
  intros [[]%accepted_not_refused | [= <- <-]%list_elem_of_singleton]%elem_of_app.
  unfold verdict. rewrite last_snoc.
  assert (r ∈ plan langs (DEV_ID (bot config))) as Hr.
  { rewrite Hplan. apply elem_of_app. right. apply list_elem_of_here. }
  intros [Hscope | Hexn].
  - destruct (req_scope r) as [chat| |] eqn:Hs; [|done..].
    destruct Hscope. revert Hr Hs. unfold plan.
    rewrite !elem_of_cons, elem_of_nil.
    intros [-> | [-> | [-> | [-> | [-> | [-> | []]]]]]]; simpl; congruence.
  - by destruct (req_scope r), e.
Qed.

Lemma setup_propagates_other_refusals_witness :
  setup_outcome Texts.SUPPORTED_LANGUAGES private_refused
    (mkConfig (mkBotConfig 42)) = inl TelegramBadRequest.
Proof.
  apply (setup_propagates_other_refusals Texts.SUPPORTED_LANGUAGES private_refused
           (mkConfig (mkBotConfig 42))
           (mkRequest (base_list Texts.SUPPORTED_LANGUAGES "en")
              BotCommandScopeAllPrivateChats None)).
  - vm_compute. do 2 apply list_elem_of_further. apply list_elem_of_here.
  - left. discriminate.
Defined.

(** X3: [setup] raises no error of its own.  If the platform refused
    none of the requests of a run, [setup] returned normally and made six
    requests; it returns normally only if none was refused; and whenever
    it raises, the last request of the run was refused, and what [setup]
    raises is that refusal or, for [TelegramBadRequest] on an admin-chat
    request, the [ValueError] naming [DEV_ID].  So no [KeyError] and no
    invalid reference comes from the dicts and lists [setup] builds. *)
Theorem setup_succeeds_iff_all_accepted
    (langs : gmap string string) (bt : Bot) (config : Config) :
  ((∀ entry, entry ∈ setup_log langs bt config → entry.2 = None) →
   setup_outcome langs bt config = inr () ∧
   length (setup_log langs bt config) = 6) ∧
  (setup_outcome langs bt config = inr () →
   ∀ entry, entry ∈ setup_log langs bt config → entry.2 = None) ∧
  (∀ e, setup_outcome langs bt config = inl e →
     ∃ r e0,
       last (setup_log langs bt config) = Some (r, Some e0) ∧
       (e = e0 ∨
        e0 = TelegramBadRequest ∧
        req_scope r = BotCommandScopeChat (DEV_ID (bot config)) ∧
        e = ValueError ("Chat with DEV_ID " ++ str (DEV_ID (bot config))
                        ++ " not found."))).
Proof.
  rewrite setup_outcome_eq, setup_log_eq.
  destruct (attempt_inv bt (plan langs (DEV_ID (bot config))) [])
    as [Hlog | (sofar & r & e0 & todo & Hplan & Hlog)]; rewrite Hlog.
  - assert (verdict (DEV_ID (bot config))
              ((λ r, (r, None)) <$> plan langs (DEV_ID (bot config))) = inr ())
      as Hverdict.
    { unfold verdict.
      destruct (last _) as [[r [e|]]|] eqn:Hlast; [|done..].
      apply last_Some_elem_of in Hlast. by apply accepted_not_refused in Hlast. }
    rewrite Hverdict. split; [|split].
    + intros _. split; [done|]. by rewrite length_fmap.
    + intros _. apply accepted_answers.
    + discriminate.
  - assert ((r, Some e0) ∈ (((λ r, (r, None)) <$> sofar) ++ [(r, Some e0)])%list) as Hin.
    { apply elem_of_app. right. apply list_elem_of_here. }
    assert (r ∈ plan langs (DEV_ID (bot config))) as Hr.
    { rewrite Hplan. apply elem_of_app. right. apply list_elem_of_here. }
    unfold verdict. rewrite last_snoc. split; [|split].
    + intros Hnone. specialize (Hnone _ Hin). discriminate Hnone.
    + by destruct (req_scope r), e0.
    + destruct (req_scope r) as [chat| |] eqn:Hs, e0;
        intros e [= <-]; eexists _, _; (split; [reflexivity|]);
        try (by left).
      right. split; [done|]. split; [|done].
      revert Hr Hs. unfold plan. rewrite !elem_of_cons, elem_of_nil.
      intros [-> | [-> | [-> | [-> | [-> | [-> | []]]]]]]; simpl; congruence.
Qed.

(** X4: the platform's answers decide how far [setup] gets, not what it
    sends: the requests of any run are an initial segment of the requests
    of the run in which everything is accepted, in the same order. *)
Theorem setup_requests_prefix_of_accepted_run
    (langs : gmap string string) (bt : Bot) (config : Config) :
  setup_requests langs bt config `prefix_of` setup_requests langs accepting config.
Proof.
  rewrite setup_requests_accepting.
  unfold setup_requests, requests. fold (setup_log langs bt config).
  rewrite setup_log_eq.
  destruct (attempt_inv bt (plan langs (DEV_ID (bot config))) [])
    as [-> | (sofar & r & e & todo & -> & ->)].
  - by rewrite accepted_requests.
  - rewrite fmap_app, accepted_requests. simpl.
    exists todo. by rewrite <-app_assoc.
Qed.

(** X8: of the language table [setup] uses nothing but whether it holds
    more than one entry.  Two tables that agree on that give the same run,
    whatever their codes: with a table holding Arabic alone, the English
    lists are registered all the same. *)
Theorem setup_depends_on_table_size_only
    (langs1 langs2 : gmap string string) (bt : Bot) (config : Config) :
  (1 < size langs1 ↔ 1 < size langs2) →
  setup_log langs1 bt config = setup_log langs2 bt config ∧
  setup_outcome langs1 bt config = setup_outcome langs2 bt config.
Proof.
  intros Hsize.
  assert (plan langs1 (DEV_ID (bot config)) = plan langs2 (DEV_ID (bot config)))
    as Hplan.
  { unfold plan, base_list.
    destruct (decide (1 < size langs1)), (decide (1 < size langs2));
      tauto || reflexivity. }
  by rewrite !setup_outcome_eq, !setup_log_eq, Hplan.
Qed.

Lemma setup_depends_on_table_size_only_witness :
  (1 < size english_only ↔ 1 < size arabic_only) ∧
  setup_log english_only accepting (mkConfig (mkBotConfig 42))
    = setup_log arabic_only accepting (mkConfig (mkBotConfig 42)) ∧
  setup_outcome english_only accepting (mkConfig (mkBotConfig 42))
    = setup_outcome arabic_only accepting (mkConfig (mkBotConfig 42)).
Proof.
  assert (1 < size english_only ↔ 1 < size arabic_only) as Hsize
    by (vm_compute; lia).
  split; [exact Hsize|].
  exact (setup_depends_on_table_size_only english_only arabic_only accepting
           (mkConfig (mkBotConfig 42)) Hsize).
Defined.

Lemma setup_succeeds_iff_all_accepted_witness :
  setup_outcome Texts.SUPPORTED_LANGUAGES accepting (mkConfig (mkBotConfig 42)) = inr () ∧
  length (setup_log Texts.SUPPORTED_LANGUAGES accepting (mkConfig (mkBotConfig 42))) = 6 ∧
  ∃ r e0,
    last (setup_log Texts.SUPPORTED_LANGUAGES unknown_chat (mkConfig (mkBotConfig 42)))
      = Some (r, Some e0) ∧
    (ValueError "Chat with DEV_ID 42 not found." = e0 ∨
     e0 = TelegramBadRequest ∧
     req_scope r = BotCommandScopeChat 42 ∧
     ValueError "Chat with DEV_ID 42 not found."
       = ValueError "Chat with DEV_ID 42 not found.").
Proof.
  destruct (setup_succeeds_iff_all_accepted Texts.SUPPORTED_LANGUAGES accepting
              (mkConfig (mkBotConfig 42))) as (Hall & _ & _).
  destruct (setup_succeeds_iff_all_accepted Texts.SUPPORTED_LANGUAGES unknown_chat
              (mkConfig (mkBotConfig 42))) as (_ & _ & Hraised).
  assert (∀ entry,
            entry ∈ setup_log Texts.SUPPORTED_LANGUAGES accepting
                      (mkConfig (mkBotConfig 42)) →
            entry.2 = None) as Hnone.
  { intros entry. vm_compute. intros Hin.
    repeat (apply elem_of_cons in Hin as [-> | Hin]; [reflexivity|]).
    by apply elem_of_nil in Hin. }
  destruct (Hall Hnone) as [Hok Hsix].
  split; [exact Hok|]. split; [exact Hsix|].
  apply (Hraised (ValueError "Chat with DEV_ID 42 not found.")).
  vm_compute. reflexivity.
Defined.

(** ** What the requests carry *)

(** The command names of a planned request, by scope. *)
Lemma planned_profile langs dev r :
  r ∈ plan langs dev →
  let base := if decide (1 < size langs)
              then ["start"; "language"] else ["start"] in
  req_scope r = BotCommandScopeChat dev ∧
    command_names r = (base ++ ["newsletter"])%list ∨
  req_scope r = BotCommandScopeAllPrivateChats ∧ command_names r = base ∨
  req_scope r = BotCommandScopeAllGroupChats ∧
    command_names r = ["ban"; "silent"; "information"].
Proof.
  unfold plan, command_names. rewrite !elem_of_cons, elem_of_nil.
  intros [-> | [-> | [-> | [-> | [-> | [-> | []]]]]]];
    cbn [req_scope req_commands];
    rewrite ?fmap_app, ?base_list_names; cbn [fmap list_fmap];
    rewrite ?newsletter_command; auto.
Qed.

(** X5: the group-chat lists do not depend on the language table: every
    group-chat request of [setup] registers the commands ban, silent and
    information, in that order, whatever the number of languages. *)
Theorem group_commands_independent_of_languages
    (langs : gmap string string) (bt : Bot) (config : Config) (r : Request) :
  r ∈ setup_requests langs bt config →
  req_scope r = BotCommandScopeAllGroupChats →
  command_names r = ["ban"; "silent"; "information"].
Proof.
  intros Hr%setup_requests_planned Hscope.
  destruct (planned_profile _ _ _ Hr) as [[Hs _] | [[Hs _] | [_ Hnames]]];
    congruence.
Qed.

Lemma group_commands_independent_of_languages_witness :
  command_names (mkRequest (group_list "ar") BotCommandScopeAllGroupChats (Some "ar"))
  = ["ban"; "silent"; "information"].
Proof.
  apply (group_commands_independent_of_languages english_only accepting
           (mkConfig (mkBotConfig 42))).
  - vm_compute. do 5 apply list_elem_of_further. apply list_elem_of_here.
  - reflexivity.
Defined.

(** X6: the newsletter command is registered for the admin chat and
    nowhere else: a request of [setup] carries it exactly when its scope
    is the chat [DEV_ID], and there it is the last command of the list. *)
Theorem newsletter_only_for_admin_chat
    (langs : gmap string string) (bt : Bot) (config : Config) (r : Request) :
  r ∈ setup_requests langs bt config →
  ("newsletter" ∈ command_names r ↔
   req_scope r = BotCommandScopeChat (DEV_ID (bot config))) ∧
  (req_scope r = BotCommandScopeChat (DEV_ID (bot config)) →
   last (command_names r) = Some "newsletter").
Proof.
  intros Hr%setup_requests_planned.
  destruct (planned_profile _ _ _ Hr) as [[Hs ->] | [[Hs ->] | [Hs ->]]];
    rewrite Hs.
  - split; [split|].
    + done.
    + intros _. apply elem_of_app. right. apply list_elem_of_here.
    + intros _. apply last_snoc.
  - split; [split|]; [|discriminate..].
    intros Hin. exfalso. revert Hin.
    case_decide; rewrite !elem_of_cons, elem_of_nil; intuition discriminate.
  - split; [split|]; [|discriminate..].
    intros Hin. exfalso. revert Hin.
    rewrite !elem_of_cons, elem_of_nil. intuition discriminate.
Qed.

Lemma newsletter_only_for_admin_chat_witness :
  command_names (mkRequest (base_list Texts.SUPPORTED_LANGUAGES "ar")
                   BotCommandScopeAllPrivateChats (Some "ar"))
    = ["start"; "language"] ∧
  ("newsletter" ∉
     command_names (mkRequest (base_list Texts.SUPPORTED_LANGUAGES "ar")
                      BotCommandScopeAllPrivateChats (Some "ar"))).
Proof.
  split; [reflexivity|].
  destruct (newsletter_only_for_admin_chat Texts.SUPPORTED_LANGUAGES accepting
              (mkConfig (mkBotConfig 42))
              (mkRequest (base_list Texts.SUPPORTED_LANGUAGES "ar")
                 BotCommandScopeAllPrivateChats (Some "ar")))
    as [Hiff _].
  - vm_compute. do 3 apply list_elem_of_further. apply list_elem_of_here.
  - intros Hin. apply Hiff in Hin. discriminate Hin.
Defined.

(** X7: within one scope the English and the Arabic list offer the same
    commands: two requests of [setup] with the same scope carry the same
    command names in the same order. *)
Theorem same_scope_same_command_names
    (langs : gmap string string) (bt : Bot) (config : Config) (r1 r2 : Request) :
  r1 ∈ setup_requests langs bt config →
  r2 ∈ setup_requests langs bt config →
  req_scope r1 = req_scope r2 →
  command_names r1 = command_names r2.
Proof.
  intros Hr1%setup_requests_planned Hr2%setup_requests_planned Hscope.
  destruct (planned_profile _ _ _ Hr1) as [[Hs1 ->] | [[Hs1 ->] | [Hs1 ->]]];
    destruct (planned_profile _ _ _ Hr2) as [[Hs2 ->] | [[Hs2 ->] | [Hs2 ->]]];
    congruence.
Qed.

Lemma same_scope_same_command_names_witness :
  command_names (mkRequest (base_list Texts.SUPPORTED_LANGUAGES "en" ++ [newsletter "en"])%list
                   (BotCommandScopeChat 42) None)
  = command_names (mkRequest (base_list Texts.SUPPORTED_LANGUAGES "ar" ++ [newsletter "ar"])%list
                     (BotCommandScopeChat 42) (Some "ar")).
Proof.
  apply (same_scope_same_command_names Texts.SUPPORTED_LANGUAGES accepting
           (mkConfig (mkBotConfig 42))).
  - vm_compute. apply list_elem_of_here.
  - vm_compute. apply list_elem_of_further, list_elem_of_here.
  - reflexivity.
Defined.

(** * Properties of [delete] *)

(** One run of [delete], whatever the platform answers: either all six
    requests were accepted, or the run ended at the first refusal. *)
Lemma delete_run (bt : DeleteBot) (config : Config) :
  delete_log bt config = (λ d, (d, None)) <$> delete_plan (DEV_ID (bot config)) ∧
    delete_outcome bt config = inr () ∨
  ∃ pre d e post,
    delete_plan (DEV_ID (bot config)) = (pre ++ d :: post)%list ∧
    delete_log bt config = (((λ d, (d, None)) <$> pre) ++ [(d, Some e)])%list ∧
    delete_outcome bt config
      = inl (match del_scope d, e with
             | BotCommandScopeChat _, TelegramBadRequest =>
                 ValueError ("Chat with DEV_ID " ++ str (DEV_ID (bot config))
                             ++ " not found.")
             | _, _ => e
             end).
Proof.
  unfold delete_log, delete_outcome, delete_plan, delete.
  set (dev := DEV_ID (bot config)).
  set (d1 := mkDeleteRequest (BotCommandScopeChat dev) None).
  set (d2 := mkDeleteRequest (BotCommandScopeChat dev) (Some "ar")).
  set (d3 := mkDeleteRequest BotCommandScopeAllPrivateChats None).
  set (d4 := mkDeleteRequest BotCommandScopeAllPrivateChats (Some "ar")).
  set (d5 := mkDeleteRequest BotCommandScopeAllGroupChats None).
  set (d6 := mkDeleteRequest BotCommandScopeAllGroupChats (Some "ar")).
  unfold mbind, D_bind, try_except_TelegramBadRequest_D, delete_my_commands,
    raise_D. cbn [fmap list_fmap fst snd app].
  fold d1 d2 d3 d4 d5 d6.
  destruct (bt [] d1) as [e|] eqn:H1.
  { right. exists [], d1, e, [d2; d3; d4; d5; d6]. by destruct e. }
  cbn [fmap list_fmap fst snd app].
  destruct (bt [d1] d2) as [e|] eqn:H2.
  { right. exists [d1], d2, e, [d3; d4; d5; d6]. by destruct e. }
  cbn [fmap list_fmap fst snd app].
  destruct (bt [d1; d2] d3) as [e|] eqn:H3.
  { right. by exists [d1; d2], d3, e, [d4; d5; d6]. }
  cbn [fmap list_fmap fst snd app].
  destruct (bt [d1; d2; d3] d4) as [e|] eqn:H4.
  { right. by exists [d1; d2; d3], d4, e, [d5; d6]. }
  cbn [fmap list_fmap fst snd app].
  destruct (bt [d1; d2; d3; d4] d5) as [e|] eqn:H5.
  { right. by exists [d1; d2; d3; d4], d5, e, [d6]. }
  cbn [fmap list_fmap fst snd app].
  destruct (bt [d1; d2; d3; d4; d5] d6) as [e|] eqn:H6.
  { right. by exists [d1; d2; d3; d4; d5], d6, e, []. }
  by left.
Qed.

Lemma accepted_has_no_refusal {R : Type} (rs : list R) (r : R) (e : exn) :
  (r, Some e) ∉ (λ r, (r, @None exn)) <$> rs.
Proof. intros (r' & [=] & _)%list_elem_of_fmap. Qed.

Lemma accepted_firsts {R : Type} (rs : list R) :
  ((λ r, (r, @None exn)) <$> rs).*1 = rs.
Proof. rewrite <-list_fmap_compose. apply list_fmap_id. Qed.

Lemma refusal_ends_log {R : Type} (rs : list R) (r r0 : R) (e e0 : exn)
    (pre post : list (R * option exn)) :
  (((λ r, (r, None)) <$> rs) ++ [(r0, Some e0)])%list
    = (pre ++ (r, Some e) :: post)%list →
  post = [] ∧ pre = (λ r, (r, None)) <$> rs ∧ r = r0 ∧ e = e0.
Proof.
  destruct post as [|entry post _] using rev_ind.
  - intros [<- [= <- <-]]%app_inj_tail. done.
  - rewrite app_comm_cons, app_assoc. intros [Hrs _]%app_inj_tail.
    destruct (accepted_has_no_refusal rs r e). rewrite Hrs.
    apply elem_of_app. right. apply list_elem_of_here.
Qed.

(** X9: [delete] returns normally exactly when its log is the six
    requests below, each accepted: the admin chat, all private chats and
    all group chats, each first without language and then for ["ar"]. *)
Theorem delete_succeeds_iff_six_accepted (bt : DeleteBot) (config : Config) :
  delete_outcome bt config = inr () ↔
  delete_log bt config
  = (λ d, (d, None)) <$>
      [ mkDeleteRequest (BotCommandScopeChat (DEV_ID (bot config))) None;
        mkDeleteRequest (BotCommandScopeChat (DEV_ID (bot config))) (Some "ar");
        mkDeleteRequest BotCommandScopeAllPrivateChats None;
        mkDeleteRequest BotCommandScopeAllPrivateChats (Some "ar");
        mkDeleteRequest BotCommandScopeAllGroupChats None;
        mkDeleteRequest BotCommandScopeAllGroupChats (Some "ar") ].
Proof.
  fold (delete_plan (DEV_ID (bot config))).
  destruct (delete_run bt config)
    as [[-> ->] | (pre & d & e & post & _ & -> & ->)]; [done|].
  split; [discriminate|].
  intros Hlog. destruct (accepted_has_no_refusal
    (delete_plan (DEV_ID (bot config))) d e).
  rewrite <-Hlog. apply elem_of_app. right. apply list_elem_of_here.
Qed.

Lemma delete_succeeds_iff_six_accepted_witness :
  delete_outcome delete_accepting (mkConfig (mkBotConfig 42)) = inr () ∧
  length (delete_log delete_accepting (mkConfig (mkBotConfig 42))) = 6 ∧
  length (delete_log delete_private_refused (mkConfig (mkBotConfig 42))) = 3 ∧
  delete_outcome delete_private_refused (mkConfig (mkBotConfig 42)) ≠ inr ().
Proof.
  destruct (delete_succeeds_iff_six_accepted delete_accepting
              (mkConfig (mkBotConfig 42))) as [_ Hok].
  destruct (delete_succeeds_iff_six_accepted delete_private_refused
              (mkConfig (mkBotConfig 42))) as [Hlog _].
  split; [apply Hok; reflexivity|]. split; [reflexivity|]. split; [reflexivity|].
  intros Hfalse. specialize (Hlog Hfalse). apply (f_equal length) in Hlog.
  discriminate Hlog.
Defined.

(** X10: if a request of [delete] for the admin chat is refused with
    [TelegramBadRequest], [delete] raises [ValueError] with the message
    naming [DEV_ID] and makes no further request: the commands of the
    private and group chats are not cleared. *)
Theorem delete_admin_failure_aborts
    (bt : DeleteBot) (config : Config)
    (d : DeleteRequest) (pre post : list (DeleteRequest * option exn)) :
  delete_log bt config = (pre ++ (d, Some TelegramBadRequest) :: post)%list →
  del_scope d = BotCommandScopeChat (DEV_ID (bot config)) →
  delete_outcome bt config
    = inl (ValueError ("Chat with DEV_ID " ++ str (DEV_ID (bot config))
                       ++ " not found.")) ∧
  post = [] ∧
  ∀ d', d' ∈ delete_requests bt config →
        del_scope d' = BotCommandScopeChat (DEV_ID (bot config)).
Proof.
  unfold delete_requests.
  destruct (delete_run bt config)
    as [[-> ->] | (sofar & d0 & e & todo & Hplan & -> & ->)].
  { intros Hlog. destruct (accepted_has_no_refusal
      (delete_plan (DEV_ID (bot config))) d TelegramBadRequest).
    rewrite Hlog. apply elem_of_app. right. apply list_elem_of_here. }
  intros (-> & -> & <- & <-)%refusal_ends_log Hscope.
  rewrite Hscope. split; [done|]. split; [done|].
  rewrite fmap_app, accepted_firsts. simpl.
  unfold delete_plan in Hplan.
  destruct sofar as [|d1 sofar];
    [injection Hplan as <- _ | injection Hplan as <- Hplan].
  { by intros d' ->%list_elem_of_singleton. }
  destruct sofar as [|d2 sofar];
    [injection Hplan as <- _ | injection Hplan as <- Hplan].
  { intros d' [-> | ->%list_elem_of_singleton]%elem_of_cons; done. }
  do 4 (destruct sofar as [|? sofar];
        [injection Hplan as <- _; discriminate Hscope | injection Hplan as _ Hplan]).
  by destruct sofar.
Qed.

Lemma delete_admin_failure_aborts_witness :
  delete_outcome delete_unknown_chat (mkConfig (mkBotConfig 42))
    = inl (ValueError "Chat with DEV_ID 42 not found.") ∧
  delete_requests delete_unknown_chat (mkConfig (mkBotConfig 42))
    = [mkDeleteRequest (BotCommandScopeChat 42) None].
Proof.
  destruct (delete_admin_failure_aborts delete_unknown_chat
              (mkConfig (mkBotConfig 42))
              (mkDeleteRequest (BotCommandScopeChat 42) None) [] [])
    as (Hraised & _ & _).
  - reflexivity.
  - reflexivity.
  - split; [exact Hraised | reflexivity].
Defined.

(** X11: [delete] stops at the first refusal, and only [TelegramBadRequest]
    on an admin-chat request is turned into [ValueError]: the refused
    request is the last of the run, and any other refusal (another
    exception on an admin-chat request, any exception on a private-chat
    or group-chat request) is raised by [delete] as it is. *)
Theorem delete_stops_and_propagates
    (bt : DeleteBot) (config : Config)
    (d : DeleteRequest) (e : exn) (pre post : list (DeleteRequest * option exn)) :
  delete_log bt config = (pre ++ (d, Some e) :: post)%list →
  post = [] ∧
  (∀ entry, entry ∈ pre → entry.2 = None) ∧
  (del_scope d ≠ BotCommandScopeChat (DEV_ID (bot config)) ∨ e ≠ TelegramBadRequest →
   delete_outcome bt config = inl e).
Proof.
  destruct (delete_run bt config)
    as [[-> ->] | (sofar & d0 & e0 & todo & Hplan & -> & ->)].
  { intros Hlog. destruct (accepted_has_no_refusal
      (delete_plan (DEV_ID (bot config))) d e).
    rewrite Hlog. apply elem_of_app. right. apply list_elem_of_here. }
  intros (-> & -> & <- & <-)%refusal_ends_log.
  split; [done|]. split.
  { by intros entry (d' & -> & _)%list_elem_of_fmap. }
  assert (d ∈ delete_plan (DEV_ID (bot config))) as Hd.
  { rewrite Hplan. apply elem_of_app. right. apply list_elem_of_here. }
  intros [Hscope | Hexn].
  - destruct (del_scope d) as [chat| |] eqn:Hs; [|done..].
    destruct Hscope. revert Hd Hs. unfold delete_plan.
    rewrite !elem_of_cons, elem_of_nil.
    intros [-> | [-> | [-> | [-> | [-> | [-> | []]]]]]]; simpl; congruence.
  - by destruct (del_scope d), e.
Qed.

Lemma delete_stops_and_propagates_witness :
  delete_log delete_private_refused (mkConfig (mkBotConfig 42))
    = [ (mkDeleteRequest (BotCommandScopeChat 42) None, None);
        (mkDeleteRequest (BotCommandScopeChat 42) (Some "ar"), None);
        (mkDeleteRequest BotCommandScopeAllPrivateChats None,
         Some TelegramBadRequest) ] ∧
  delete_outcome delete_private_refused (mkConfig (mkBotConfig 42))
    = inl TelegramBadRequest.
Proof.
  split; [reflexivity|].
  destruct (delete_stops_and_propagates delete_private_refused
              (mkConfig (mkBotConfig 42))
              (mkDeleteRequest BotCommandScopeAllPrivateChats None)
              TelegramBadRequest
              [ (mkDeleteRequest (BotCommandScopeChat 42) None, None);
                (mkDeleteRequest (BotCommandScopeChat 42) (Some "ar"), None) ]
              [])
    as (_ & _ & Hsame).
  - reflexivity.
  - apply Hsame. left. discriminate.
Defined.

(** X12: [delete] mirrors [setup].  When both end without an exception,
    the requests of [delete] address, one for one and in the same order,
    the scope and language of the requests of [setup]: what [setup]
    registered is what [delete] clears, whatever the language table. *)
Theorem delete_mirrors_setup
    (langs : gmap string string) (bt : Bot) (dbt : DeleteBot) (config : Config) :
  setup_outcome langs bt config = inr () →
  delete_outcome dbt config = inr () →
  delete_target <$> delete_requests dbt config
  = request_target <$> setup_requests langs bt config.
Proof.
  intros Hsetup Hdelete. rewrite (setup_success _ _ _ Hsetup).
  unfold delete_requests.
  destruct (delete_run dbt config)
    as [[-> _] | (pre & d & e & post & _ & _ & Hraised)].
  - by rewrite accepted_firsts.
  - rewrite Hdelete in Hraised. discriminate Hraised.
Qed.

Lemma delete_mirrors_setup_witness :
  delete_target <$> delete_requests delete_accepting (mkConfig (mkBotConfig 42))
  = request_target <$>
      setup_requests Texts.SUPPORTED_LANGUAGES accepting (mkConfig (mkBotConfig 42)).
Proof.
  apply delete_mirrors_setup.
  - vm_compute. reflexivity.
  - reflexivity.
Defined.

(** * Further properties of the text catalog *)

Lemma init_code (code : string) :
  language_code (init code) = "en" ∨ language_code (init code) = "ar".
Proof.
  destruct (decide (code ∈ dom SUPPORTED_LANGUAGES)) as [Hin | Hout].
  - rewrite (init_supported code Hin). by apply supported_iff.
  - left. by apply init_unsupported.
Qed.

Lemma data_keys_agree (hbold : string → string) :
  dom (data_en hbold) = dom (data_ar hbold).
Proof. apply (bool_decide_unpack _). vm_compute. exact I. Qed.

(** X13: a message key of the English mapping can be fetched from
    [TextMessage] under every language code, supported or not: the lookup
    never raises. *)
Theorem known_key_never_fails (hbold : string → string) (code key : string) :
  key ∈ dom (data_en hbold) →
  ∃ text, @get (TextMessage hbold) (init code) key = inr text.
Proof.
  intros Hkey. unfold get.
  destruct (init_code code) as [-> | ->].
  - rewrite TextMessage_en.
    apply elem_of_dom in Hkey as [text ->]. by exists text.
  - rewrite TextMessage_ar. rewrite data_keys_agree in Hkey.
    apply elem_of_dom in Hkey as [text ->]. by exists text.
Qed.

Lemma known_key_never_fails_witness :
  ("user_blocked" ∈ dom (data_en html_bold)) ∧
  ∃ text, @get (TextMessage html_bold) (init "de") "user_blocked" = inr text.
Proof.
  assert ("user_blocked" ∈ dom (data_en html_bold)) as Hkey
    by (apply (bool_decide_unpack _); vm_compute; exact I).
  split; [exact Hkey|].
  exact (known_key_never_fails html_bold "de" "user_blocked" Hkey).
Defined.

(** X14: a key that the English mapping lacks cannot be fetched from
    [TextMessage] under any language code: [get] raises [KeyError] with
    that message key (not with the language code). *)
Theorem unknown_key_raises_KeyError (hbold : string → string) (code key : string) :
  key ∉ dom (data_en hbold) →
  @get (TextMessage hbold) (init code) key = inl (KeyError key).
Proof.
  intros Hkey. unfold get.
  destruct (init_code code) as [-> | ->].
  - rewrite TextMessage_en.
    apply not_elem_of_dom in Hkey as ->. done.
  - rewrite TextMessage_ar. rewrite data_keys_agree in Hkey.
    apply not_elem_of_dom in Hkey as ->. done.
Qed.

Lemma unknown_key_raises_KeyError_witness :
  ("Message_Sent" ∉ dom (data_en html_bold)) ∧
  @get (TextMessage html_bold) (init "ar") "Message_Sent"
    = inl (KeyError "Message_Sent").
Proof.
  assert ("Message_Sent" ∉ dom (data_en html_bold)) as Hkey
    by (apply (bool_decide_unpack _); vm_compute; exact I).
  split; [exact Hkey|].
  exact (unknown_key_raises_KeyError html_bold "ar" "Message_Sent" Hkey).
Defined.

(** X15: resolving a language code is idempotent: constructing an
    instance from the language code of an instance gives that instance
    again. *)
Theorem init_idempotent (code : string) :
  init (language_code (init code)) = init code.
Proof.
  destruct (init code) as [lang] eqn:Hinit. simpl.
  assert (lang ∈ dom SUPPORTED_LANGUAGES) as Hin.
  { apply supported_iff. change lang with (language_code (mkText lang)).
    rewrite <-Hinit. apply init_code. }
  unfold init. by rewrite decide_True.
Qed.

(** X16: the fallback assumes an English mapping.  For a catalog whose
    [data] has no ["en"] entry, every unsupported language code makes
    [get] raise [KeyError] with the key ["en"], whatever message key is
    asked for. *)
Theorem fallback_needs_english_mapping
    (D : TextData) (code key : string) :
  @data D !! "en" = None →
  code ∉ dom SUPPORTED_LANGUAGES →
  @get D (init code) key = inl (KeyError "en").
Proof.
  intros Hmissing Hout. unfold get.
  rewrite (init_unsupported code Hout). by rewrite Hmissing.
Qed.

Lemma fallback_needs_english_mapping_witness :
  @get (dict [("ar", data_ar html_bold)]) (init "fr") "message_sent"
    = inl (KeyError "en").
Proof.
  apply fallback_needs_english_mapping.
  - reflexivity.
  - apply (bool_decide_unpack _). vm_compute. exact I.
Defined.
